(** * oauthlib.oauth2.draft25.grant_types: the authorization-grant logic

    A shallow embedding of [oauthlib/oauth2/draft25/grant_types.py]: the
    shared request validator of [AuthorizationBase] and the response
    assembly of [AuthorizationCodeGrant] and [ImplicitGrant].

    Python objects are mutable and the hooks of a grant class are
    overridden by the storage backend, so the embedding is a small
    state-and-exception monad over a store that holds the request object,
    the attributes the grant instance sets on itself, the backend's own
    state, the supply of generated tokens and a log of every hook call. *)

From stdpp Require Import base option list strings gmap fin_maps.
From Stdlib Require Import ZArith String.

Local Open Scope string_scope.
Local Open Scope Z_scope.

(** ** Python values *)

(** The values that end up in a grant, a token or an error: unicode
    strings, integers and [None]. *)
Inductive Value : Type :=
| VStr (s : string)
| VInt (n : Z)
| VNone.

#[global] Instance Value_eq_dec : EqDecision Value.
Proof. solve_decision. Defined.

(** A Python [dict] with unicode keys. *)
Abbreviation Dict := (gmap string Value).

(** [d.items()]: the (key, value) pairs of a dict, in the dict's order. *)
Definition items (d : Dict) : list (string * Value) := map_to_list d.

(** An attribute that holds a string or [None], read as a value. *)
Definition to_value (o : option string) : Value :=
  match o with
  | Some s => VStr s
  | None => VNone
  end.

(** Truth value testing, [if x:] and [not x]: [None], the empty string and
    the empty list are false, everything else is true. *)
Class Truthy (A : Type) := truthy : A -> bool.

#[global] Instance truthy_string : Truthy string :=
  fun s => match s with EmptyString => false | String _ _ => true end.

#[global] Instance truthy_list {A} : Truthy (list A) :=
  fun l => match l with [] => false | _ :: _ => true end.

#[global] Instance truthy_option {A} `{Truthy A} : Truthy (option A) :=
  fun o => match o with Some a => truthy a | None => false end.

(** [' '.join(scopes)] *)
Definition join (sep : string) (l : list string) : string :=
  String.concat sep l.

(** ** errors *)

Module errors.

(** Modelled from the spec: the module [errors] (imported by
    grant_types.py, its source is not part of this file).  A closed set
    of error kinds, each with a machine-readable code, an optional
    description and the optional state of the client. *)
Inductive Kind : Type :=
| InvalidRequest
| UnauthorizedClient
| UnsupportedResponseType
| InvalidScope
| AccessDenied
| UnsupportedGrantType
| InvalidGrant.

#[global] Instance Kind_eq_dec : EqDecision Kind.
Proof. solve_decision. Defined.

(** Modelled from the spec: the class [OAuth2Error] of the module
    [errors], an error with its kind, optional description and optional
    state. *)
Record OAuth2Error : Type := mkError {
  kind : Kind;
  description : option string;
  state : option string
}.

(** Modelled from the spec: the code of each kind of the module [errors],
    as it appears in [error=unauthorized_client]. *)
Definition error (k : Kind) : string :=
  match k with
  | InvalidRequest => "invalid_request"
  | UnauthorizedClient => "unauthorized_client"
  | UnsupportedResponseType => "unsupported_response_type"
  | InvalidScope => "invalid_scope"
  | AccessDenied => "access_denied"
  | UnsupportedGrantType => "unsupported_grant_type"
  | InvalidGrant => "invalid_grant"
  end.

(** Modelled from the spec: the error classes of the module [errors], with
    the keyword arguments grant_types.py passes to them. *)
Definition InvalidRequestError (state description : option string) :=
  mkError InvalidRequest description state.
Definition UnauthorizedClientError (state : option string) :=
  mkError UnauthorizedClient None state.
Definition UnsupportedResponseTypeError (state : option string) :=
  mkError UnsupportedResponseType None state.
Definition InvalidScopeError (state : option string) :=
  mkError InvalidScope None state.
Definition AccessDeniedError (state : option string) :=
  mkError AccessDenied None state.
Definition UnsupportedGrantTypeError :=
  mkError UnsupportedGrantType None None.
Definition InvalidGrantError :=
  mkError InvalidGrant None None.

(** Modelled from the spec: an optional field of an error, as zero or one
    pair of its redirect form. *)
Definition pair_of (key : string) (o : option string)
  : list (string * Value) :=
  match o with
  | Some s => [(key, VStr s)]
  | None => []
  end.

(** Modelled from the spec: the property [twotuples] of the module
    [errors], the redirect form of an error: the ordered pairs
    [("error", code), ("state", state)?, ...]. *)
Definition twotuples (e : OAuth2Error) : list (string * Value) :=
  ("error", VStr (error (kind e)))
    :: pair_of "state" (state e)
    ++ pair_of "error_description" (description e).

(** Modelled from the spec: an optional field of an error in its JSON
    object. *)
Definition with_field (key : string) (o : option string) (d : Dict)
  : Dict :=
  match o with
  | Some s => <[key := VStr s]> d
  | None => d
  end.

(** Modelled from the spec: the property [json] of the module [errors],
    the body form of an error: the JSON object
    [{"error": code, "error_description"?: ..., "state"?: ...}]. *)
Definition json (e : OAuth2Error) : Dict :=
  with_field "state" (state e)
    (with_field "error_description" (description e)
       {["error" := VStr (error (kind e))]}).

End errors.

(** ** oauthlib.common *)

Module common.

(** Modelled from the spec: what [add_params_to_uri] of [oauthlib.common]
    returns, a redirection: the URI it goes to, and the pairs that were
    appended to its query and to its fragment. *)
Record Redirect : Type := mkRedirect {
  target : option string;
  query : list (string * Value);
  fragment : list (string * Value)
}.

(** Modelled from the spec: [add_params_to_uri] of [oauthlib.common]
    (imported by grant_types.py, its source is not part of this file)
    appends the pairs to the URI as query parameters or, with
    [fragment=True], as fragment parameters.  The URI is the attribute
    [request.redirect_uri] as it is, a string or [None]. *)
Definition add_params_to_uri (uri : option string)
    (params : list (string * Value)) (fragment : bool) : Redirect :=
  if fragment
  then mkRedirect uri [] params
  else mkRedirect uri params [].

End common.

(** ** The request object *)

(** The attributes of a request that grant_types.py reads or writes.  An
    attribute that is not set is [None]. *)
Record Request : Type := mkRequest {
  client_id : option string;
  response_type : option string;
  redirect_uri : option string;
  scopes : option (list string);
  state : option string;
  grant_type : option string;
  code : option string;
  client : option string;
  params : gmap string string
}.

(** [request.scopes = v], [request.redirect_uri = v], [request.code = v] *)
Definition set_scopes (v : option (list string)) (r : Request) : Request :=
  mkRequest (client_id r) (response_type r) (redirect_uri r) v (state r)
    (grant_type r) (code r) (client r) (params r).

Definition set_redirect_uri (v : option string) (r : Request) : Request :=
  mkRequest (client_id r) (response_type r) v (scopes r) (state r)
    (grant_type r) (code r) (client r) (params r).

Definition set_code (v : option string) (r : Request) : Request :=
  mkRequest (client_id r) (response_type r) (redirect_uri r) (scopes r)
    (state r) (grant_type r) v (client r) (params r).

(** ** Hook calls *)

(** One entry of the log: the hook that was called, its arguments and what
    it returned. *)
Inductive Call : Type :=
| Called_validate_client (client : option string)
    (args : list (option string)) (result : bool)
| Called_validate_scopes (client : option string)
    (scopes : option (list string)) (result : bool)
| Called_validate_redirect_uri (client redirect_uri : option string)
    (result : bool)
| Called_get_default_redirect_uri (client : option string)
    (result : option string)
| Called_get_default_scopes (client : option string)
    (result : list string)
| Called_validate_code (client code : option string) (result : bool)
| Called_get_scopes (client code : option string) (result : list string)
| Called_save_authorization_grant (client_id : option string)
    (grant : Dict) (state : option string)
| Called_save_grant (client_id : option string) (grant : Dict)
    (state : option string)
| Called_token_handler (token result : Dict).

(** The calls of the hooks of the base class. *)
Definition of_base_class (c : Call) : bool :=
  match c with
  | Called_validate_client _ _ _
  | Called_validate_scopes _ _ _
  | Called_validate_redirect_uri _ _ _
  | Called_get_default_redirect_uri _ _
  | Called_get_default_scopes _ _ => true
  | _ => false
  end.

(** The calls of [validate_code]. *)
Definition of_validate_code (c : Call) : bool :=
  match c with
  | Called_validate_code _ _ _ => true
  | _ => false
  end.

(** ** The store and the monad *)

(** The attributes [self.grant], [self.token] and [self.scopes] that the
    methods set on the grant instance ([None] while not set). *)
Record Self : Type := mkSelf {
  self_grant : option Dict;
  self_token : option Dict;
  self_scopes : option (list string)
}.

(** What a method can read and write: the request object it was given, the
    grant instance, the state of the backend behind the hooks, the number
    of tokens generated so far and the log of hook calls. *)
Record Store (S : Type) : Type := mkStore {
  request : Request;
  self : Self;
  backend : S;
  generated : nat;
  log : list Call
}.

Arguments mkStore {S}.
Arguments request {S}.
Arguments self {S}.
Arguments backend {S}.
Arguments generated {S}.
Arguments log {S}.

(** What a method can raise: an error of the module [errors], or one of
    Python's own errors on a value that is [None] or an attribute that is
    not set. *)
Inductive Exception : Type :=
| OAuth2 (e : errors.OAuth2Error)
| TypeError
| AttributeError.

(** A method: from a store to what it returns or raises, and the store it
    leaves.  What was written before an exception stays written. *)
Definition M (S A : Type) : Type := Store S -> (Exception + A) * Store S.

Definition ret {S A} (a : A) : M S A := fun st => (inr a, st).

Definition bind {S A B} (m : M S A) (k : A -> M S B) : M S B :=
  fun st =>
    match m st with
    | (inr a, st') => k a st'
    | (inl e, st') => (inl e, st')
    end.

Definition raise {S A} (e : Exception) : M S A := fun st => (inl e, st).

(** [try: m  except errors.OAuth2Error as e: ...]: the error of the module
    [errors] that [m] raised, or what [m] returned.  Other exceptions pass
    through. *)
Definition try_except {S A} (m : M S A) : M S (errors.OAuth2Error + A) :=
  fun st =>
    match m st with
    | (inr a, st') => (inr (inr a), st')
    | (inl (OAuth2 e), st') => (inr (inl e), st')
    | (inl e, st') => (inl e, st')
    end.

Notation "'do' x <- c1 ; c2" := (bind c1 (fun x => c2))
  (at level 10, x name, c1 at level 100, c2 at level 200,
   format "'[v' 'do'  x  <-  c1 ; '/' c2 ']'").

(** [if not cond: body] *)
Definition unless {S} (cond : bool) (body : M S unit) : M S unit :=
  if cond then ret tt else body.

(** [raise e] for an error of the module [errors]. *)
Definition raise_error {S A} (e : errors.OAuth2Error) : M S A :=
  raise (OAuth2 e).

(** Reading the request as it is now, and replacing it by an updated
    one. *)
Definition the_request {S} : M S Request :=
  fun st => (inr (request st), st).

Definition update_request {S} (f : Request -> Request) : M S unit :=
  fun st =>
    (inr tt,
     mkStore (f (request st)) (self st) (backend st) (generated st)
       (log st)).

(** Reading the grant instance, and writing its attributes. *)
Definition the_self {S} : M S Self :=
  fun st => (inr (self st), st).

Definition update_self {S} (f : Self -> Self) : M S unit :=
  fun st =>
    (inr tt,
     mkStore (request st) (f (self st)) (backend st) (generated st)
       (log st)).

Definition set_self_grant (d : Dict) (o : Self) : Self :=
  mkSelf (Some d) (self_token o) (self_scopes o).

Definition set_self_token (d : Dict) (o : Self) : Self :=
  mkSelf (self_grant o) (Some d) (self_scopes o).

Definition set_self_scopes (l : list string) (o : Self) : Self :=
  mkSelf (self_grant o) (self_token o) (Some l).

(** Calling a hook of the backend: it runs on the backend's state, and the
    call is logged with its result. *)
Definition call {S A} (hook : S -> A * S) (entry : A -> Call) : M S A :=
  fun st =>
    let (a, s') := hook (backend st) in
    (inr a,
     mkStore (request st) (self st) s' (generated st)
       (log st ++ [entry a])).

(** Calling a hook that returns nothing. *)
Definition call_ {S} (hook : S -> S) (entry : Call) : M S unit :=
  call (fun s => (tt, hook s)) (fun _ => entry).

(** Modelled from the spec: [generate_token] of [oauthlib.common]
    (imported by grant_types.py, its source is not part of this file)
    returns a freshly generated opaque token: the next one of the supply
    [token_at], which is then used up. *)
Definition generate_token {S} (token_at : nat -> string) : M S string :=
  fun st =>
    (inr (token_at (generated st)),
     mkStore (request st) (self st) (backend st)
       (Datatypes.S (generated st)) (log st)).

(** ** class AuthorizationBase *)

Module AuthorizationBase.

(** The methods a subclass must implement, and the attribute
    [response_type_handlers] ([x in self.response_type_handlers] only
    looks at its keys).  A hook gets the values the caller passes, runs on
    the backend's state and returns a value whose truth the caller
    tests. *)
Record Hooks (S : Type) : Type := mkHooks {
  validate_client :
    option string -> list (option string) -> S -> bool * S;
  validate_scopes :
    option string -> option (list string) -> S -> bool * S;
  validate_redirect_uri :
    option string -> option string -> S -> bool * S;
  get_default_redirect_uri : option string -> S -> option string * S;
  get_default_scopes : option string -> S -> list string * S;
  response_type_handlers : list string
}.

Arguments mkHooks {S}.
Arguments validate_client {S}.
Arguments validate_scopes {S}.
Arguments validate_redirect_uri {S}.
Arguments get_default_redirect_uri {S}.
Arguments get_default_scopes {S}.
Arguments response_type_handlers {S}.

(** [x in self.response_type_handlers] *)
Definition handled (handlers : list string) (x : option string) : bool :=
  match x with
  | Some t => bool_decide (t ∈ handlers)
  | None => false
  end.

Section Methods.

Context {S : Type}.

(** [is_absolute_uri] of [oauthlib.uri_validate] (imported by
    grant_types.py, its source is not part of this file), on the attribute
    [request.redirect_uri] as it is. *)
Variable is_absolute_uri : option string -> bool.

Variable hooks : Hooks S.

Definition validate_request : M S bool :=
  do req <- the_request;
  do _ <- unless (truthy (client_id req))
    (raise_error (errors.InvalidRequestError (state req)
       (Some "Missing client_id parameter.")));
  do _ <- unless (truthy (response_type req))
    (raise_error (errors.InvalidRequestError (state req)
       (Some "Missing response_type parameter.")));
  do ok <- call (validate_client hooks (client_id req) [])
    (Called_validate_client (client_id req) []);
  do _ <- unless ok
    (raise_error (errors.UnauthorizedClientError (state req)));
  do _ <- unless (handled (response_type_handlers hooks) (response_type req))
    (raise_error (errors.UnsupportedResponseTypeError (state req)));
  do _ <-
    (if truthy (scopes req)
     then
       do ok <- call (validate_scopes hooks (client_id req) (scopes req))
         (Called_validate_scopes (client_id req) (scopes req));
       unless ok (raise_error (errors.InvalidScopeError (state req)))
     else
       do default <- call (get_default_scopes hooks (client_id req))
         (Called_get_default_scopes (client_id req));
       update_request (set_scopes (Some default)));
  do req <- the_request;
  do _ <-
    (if truthy (redirect_uri req)
     then
       do _ <- unless (is_absolute_uri (redirect_uri req))
         (raise_error (errors.InvalidRequestError (state req)
            (Some "Non absolute redirect URI. See RFC3986")));
       do ok <- call
           (validate_redirect_uri hooks (client_id req) (redirect_uri req))
           (Called_validate_redirect_uri (client_id req) (redirect_uri req));
       unless ok (raise_error (errors.AccessDeniedError (state req)))
     else
       do default <- call (get_default_redirect_uri hooks (client_id req))
         (Called_get_default_redirect_uri (client_id req));
       do _ <- update_request (set_redirect_uri default);
       do req <- the_request;
       unless (truthy (redirect_uri req))
         (raise_error (errors.AccessDeniedError (state req))));
  ret true.

End Methods.

End AuthorizationBase.

(** ** class AuthorizationCodeGrant(AuthorizationBase) *)

Module AuthorizationCodeGrant.

(** The hooks of the base class and those of this class.  [get_scopes] is
    called by [create_token_response] and defined nowhere in
    grant_types.py: the backend provides it as well. *)
Record Hooks (S : Type) : Type := mkHooks {
  base : AuthorizationBase.Hooks S;
  save_authorization_grant :
    option string -> Dict -> option string -> S -> S;
  validate_code : option string -> option string -> S -> bool * S;
  get_scopes : option string -> option string -> S -> list string * S
}.

Arguments mkHooks {S}.
Arguments base {S}.
Arguments save_authorization_grant {S}.
Arguments validate_code {S}.
Arguments get_scopes {S}.

Definition expires_in : Z := 3600.

Section Methods.

Context {S : Type}.
Variable is_absolute_uri : option string -> bool.
Variable token_at : nat -> string.
Variable hooks : Hooks S.

Definition create_token : M S Dict :=
  do access_token <- generate_token token_at;
  do refresh_token <- generate_token token_at;
  do o <- the_self;
  match self_scopes o with
  | None => raise AttributeError
  | Some scopes =>
      ret (<["access_token" := VStr access_token]>
          (<["refresh_token" := VStr refresh_token]>
          (<["expires_in" := VInt expires_in]>
          (<["scope" := VStr (join " " scopes)]> ∅))))
  end.

Definition create_code : M S Dict :=
  do code <- generate_token token_at;
  do req <- the_request;
  let grant : Dict := <["code" := VStr code]> ∅ in
  if truthy (state req)
  then ret (<["state" := to_value (state req)]> grant)
  else ret grant.

Definition create_authorization_grant : M S Dict :=
  do code <- generate_token token_at;
  do req <- the_request;
  let grant : Dict := <["code" := VStr code]> ∅ in
  if truthy (state req)
  then ret (<["state" := to_value (state req)]> grant)
  else ret grant.

Definition create_authorization_response : M S common.Redirect :=
  do r <- try_except
    (AuthorizationBase.validate_request is_absolute_uri (base hooks));
  match r with
  | inl e =>
      do req <- the_request;
      ret (common.add_params_to_uri (redirect_uri req)
             (errors.twotuples e) false)
  | inr _ =>
      do grant <- create_authorization_grant;
      do _ <- update_self (set_self_grant grant);
      do req <- the_request;
      do _ <- call_
        (save_authorization_grant hooks (client_id req) grant (state req))
        (Called_save_authorization_grant (client_id req) grant (state req));
      do req <- the_request;
      ret (common.add_params_to_uri (redirect_uri req) (items grant) false)
  end.

(** [json.dumps(self.token)] and [e.json] are both the text of a JSON
    object; the response is that object. *)
Definition create_token_response
    (token_handler : Dict -> S -> Dict * S) : M S Dict :=
  do req <- the_request;
  do _ <- update_request (set_code (params req !! "code"));
  do req <- the_request;
  do _ <- update_request (set_redirect_uri (params req !! "redirect_uri"));
  do r <- try_except
    (AuthorizationBase.validate_request is_absolute_uri (base hooks));
  match r with
  | inl e => ret (errors.json e)
  | inr _ =>
      do req <- the_request;
      do scopes <- call (get_scopes hooks (client req) (code req))
        (Called_get_scopes (client req) (code req));
      do _ <- update_self (set_self_scopes scopes);
      do token <- create_token;
      do _ <- update_self (set_self_token token);
      do token <- call (token_handler token) (Called_token_handler token);
      do _ <- update_self (set_self_token token);
      (* TODO: save token *)
      ret token
  end.

Definition validate_token_request : M S unit :=
  do req <- the_request;
  do _ <- unless (bool_decide (grant_type req = Some "authorization_code"))
    (raise_error errors.UnsupportedGrantTypeError);
  do _ <- unless (truthy (code req))
    (raise_error (errors.InvalidRequestError None
       (Some "Missing code parameter.")));
  do ok <- call
      (AuthorizationBase.validate_client (base hooks) (client req)
         [grant_type req])
      (Called_validate_client (client req) [grant_type req]);
  do _ <- unless ok (raise_error (errors.UnauthorizedClientError None));
  do ok <- call (validate_code hooks (client req) (code req))
    (Called_validate_code (client req) (code req));
  unless ok (raise_error errors.InvalidGrantError).

End Methods.

End AuthorizationCodeGrant.

(** ** class ImplicitGrant(AuthorizationBase) *)

Module ImplicitGrant.

Record Hooks (S : Type) : Type := mkHooks {
  base : AuthorizationBase.Hooks S;
  save_grant : option string -> Dict -> option string -> S -> S
}.

Arguments mkHooks {S}.
Arguments base {S}.
Arguments save_grant {S}.

Definition expires_in : Z := 3600.

Section Methods.

Context {S : Type}.
Variable is_absolute_uri : option string -> bool.
Variable token_at : nat -> string.
Variable hooks : Hooks S.

Definition create_token : M S Dict :=
  do access_token <- generate_token token_at;
  do req <- the_request;
  match scopes req with
  | None => raise TypeError
  | Some scopes =>
      ret (<["access_token" := VStr access_token]>
          (<["expires_in" := VInt expires_in]>
          (<["scope" := VStr (join " " scopes)]>
          (<["state" := to_value (state req)]> ∅))))
  end.

(** The token handler is called with the grant instance and the token. *)
Definition create_authorization_response
    (token_handler : Self -> Dict -> S -> Dict * S)
  : M S common.Redirect :=
  do r <- try_except
    (AuthorizationBase.validate_request is_absolute_uri (base hooks));
  match r with
  | inl e =>
      do req <- the_request;
      ret (common.add_params_to_uri (redirect_uri req)
             (errors.twotuples e) true)
  | inr _ =>
      do token <- create_token;
      do _ <- update_self (set_self_token token);
      do o <- the_self;
      do token <- call (token_handler o token) (Called_token_handler token);
      do _ <- update_self (set_self_token token);
      do req <- the_request;
      do _ <- call_ (save_grant hooks (client_id req) token (state req))
        (Called_save_grant (client_id req) token (state req));
      do req <- the_request;
      ret (common.add_params_to_uri (redirect_uri req) (items token) true)
  end.

End Methods.

End ImplicitGrant.

(** ** The validator as the specification words it *)

Module Validator.

(** One check of the validator: it passes ([None]) or fails with an error,
    and leaves a store. *)
Definition Precondition (S : Type) : Type :=
  Store S -> option errors.OAuth2Error * Store S.

(** The checks in the given order, stopping at the first one that fails. *)
Fixpoint in_order {S} (checks : list (Precondition S)) : Precondition S :=
  fun st =>
    match checks with
    | [] => (None, st)
    | check :: rest =>
        match check st with
        | (None, st') => in_order rest st'
        | (Some e, st') => (Some e, st')
        end
    end.

(** What the validator returns or raises for the outcome of its checks. *)
Definition result_of {S} (r : option errors.OAuth2Error * Store S)
  : (Exception + bool) * Store S :=
  match r with
  | (None, st) => (inr true, st)
  | (Some e, st) => (inl (OAuth2 e), st)
  end.

Definition else_ (ok : bool) (e : errors.OAuth2Error)
  : option errors.OAuth2Error :=
  if ok then None else Some e.

(** Consulting the collaborator: the hook runs on the backend's state and
    the call is logged. *)
Definition ask {S A} (hook : S -> A * S) (entry : A -> Call)
    (st : Store S) : A * Store S :=
  let (a, s') := hook (backend st) in
  (a, mkStore (request st) (self st) s' (generated st)
        (log st ++ [entry a])).

Definition with_request {S} (f : Request -> Request) (st : Store S)
  : Store S :=
  mkStore (f (request st)) (self st) (backend st) (generated st) (log st).

Section Checks.

Context {S : Type}.
Variable is_absolute_uri : option string -> bool.
Variable hooks : AuthorizationBase.Hooks S.

(** 1. [client_id] present, else [InvalidRequest]. *)
Definition client_id_present : Precondition S :=
  fun st =>
    let req := request st in
    (else_ (truthy (client_id req))
       (errors.InvalidRequestError (state req)
          (Some "Missing client_id parameter.")),
     st).

(** 2. [response_type] present, else [InvalidRequest]. *)
Definition response_type_present : Precondition S :=
  fun st =>
    let req := request st in
    (else_ (truthy (response_type req))
       (errors.InvalidRequestError (state req)
          (Some "Missing response_type parameter.")),
     st).

(** 3. Client authority, else [UnauthorizedClient]. *)
Definition client_authority : Precondition S :=
  fun st =>
    let req := request st in
    let (ok, st') :=
      ask (AuthorizationBase.validate_client hooks (client_id req) [])
        (Called_validate_client (client_id req) []) st in
    (else_ ok (errors.UnauthorizedClientError (state req)), st').

(** 4. [response_type] supported, else [UnsupportedResponseType]. *)
Definition response_type_supported : Precondition S :=
  fun st =>
    let req := request st in
    (else_
       (AuthorizationBase.handled
          (AuthorizationBase.response_type_handlers hooks)
          (response_type req))
       (errors.UnsupportedResponseTypeError (state req)),
     st).

(** 5. Scopes: validated when the request carries them, else
    [InvalidScope]; filled from the collaborator's default otherwise. *)
Definition scope_resolution : Precondition S :=
  fun st =>
    let req := request st in
    if truthy (scopes req)
    then
      let (ok, st') :=
        ask (AuthorizationBase.validate_scopes hooks (client_id req)
               (scopes req))
          (Called_validate_scopes (client_id req) (scopes req)) st in
      (else_ ok (errors.InvalidScopeError (state req)), st')
    else
      let (default, st') :=
        ask (AuthorizationBase.get_default_scopes hooks (client_id req))
          (Called_get_default_scopes (client_id req)) st in
      (None, with_request (set_scopes (Some default)) st').

(** 6. Redirect URI: absolute, else [InvalidRequest], and authorized, else
    [AccessDenied], when the request carries one; filled from the
    collaborator's default otherwise, [AccessDenied] when there is none. *)
Definition redirect_uri_resolution : Precondition S :=
  fun st =>
    let req := request st in
    if truthy (redirect_uri req)
    then
      if is_absolute_uri (redirect_uri req)
      then
        let (ok, st') :=
          ask (AuthorizationBase.validate_redirect_uri hooks
                 (client_id req) (redirect_uri req))
            (Called_validate_redirect_uri (client_id req)
               (redirect_uri req)) st in
        (else_ ok (errors.AccessDeniedError (state req)), st')
      else
        (Some (errors.InvalidRequestError (state req)
                 (Some "Non absolute redirect URI. See RFC3986")),
         st)
    else
      let (default, st') :=
        ask (AuthorizationBase.get_default_redirect_uri hooks
               (client_id req))
          (Called_get_default_redirect_uri (client_id req)) st in
      (else_ (truthy default) (errors.AccessDeniedError (state req)),
       with_request (set_redirect_uri default) st').

Definition ordered_checks : list (Precondition S) :=
  [ client_id_present;
    response_type_present;
    client_authority;
    response_type_supported;
    scope_resolution;
    redirect_uri_resolution ].

End Checks.

End Validator.

(** ** A backend to run the grants on *)

Module Example.

(** A stand-in for [is_absolute_uri]: the URI starts with a scheme. *)
Definition has_scheme (uri : option string) : bool :=
  match uri with
  | Some u => String.prefix "https://" u
  | None => false
  end.

(** A supply of tokens. *)
Definition numbered (n : nat) : string :=
  match n with
  | O => "token-0"
  | 1%nat => "token-1"
  | 2%nat => "token-2"
  | 3%nat => "token-3"
  | _ => "token-n"
  end.

(** The backend keeps the authorization codes that are outstanding: a code
    is added when its grant is saved and removed when it is validated, so
    that a code validates once. *)
Definition Codes : Type := list string.

Definition outstanding (code : option string) (codes : Codes) : bool :=
  match code with
  | Some c => bool_decide (c ∈ codes)
  | None => false
  end.

Definition redeem (code : option string) (codes : Codes) : Codes :=
  match code with
  | Some c => filter (fun x => x ≠ c) codes
  | None => codes
  end.

Definition remember (grant : Dict) (codes : Codes) : Codes :=
  match grant !! "code" with
  | Some (VStr c) => c :: codes
  | _ => codes
  end.

(** The policy of the backend: the clients it knows, the scopes and the
    redirect URI it falls back on. *)
Definition base_hooks (clients : list string)
    (default_scopes : list string) (default_redirect_uri : option string)
  : AuthorizationBase.Hooks Codes :=
  AuthorizationBase.mkHooks
    (fun client _ s => (outstanding client clients, s))
    (fun _ scopes s => (bool_decide (scopes = Some ["read"]), s))
    (fun _ uri s => (bool_decide (uri = Some "https://app.example/cb"), s))
    (fun _ s => (default_redirect_uri, s))
    (fun _ s => (default_scopes, s))
    ["code"; "token"].

Definition code_hooks (clients : list string)
    (default_scopes : list string) (default_redirect_uri : option string)
  : AuthorizationCodeGrant.Hooks Codes :=
  AuthorizationCodeGrant.mkHooks
    (base_hooks clients default_scopes default_redirect_uri)
    (fun _ grant _ s => remember grant s)
    (fun _ code s => (outstanding code s, redeem code s))
    (fun _ _ s => (["read"], s)).

Definition implicit_hooks (clients : list string)
    (default_scopes : list string) (default_redirect_uri : option string)
  : ImplicitGrant.Hooks Codes :=
  ImplicitGrant.mkHooks
    (base_hooks clients default_scopes default_redirect_uri)
    (fun _ _ _ s => s).

(** Token handlers: one that returns the token as it is, one that returns
    an empty token. *)
Definition unchanged (token : Dict) (s : Codes) : Dict * Codes :=
  (token, s).

Definition emptied (token : Dict) (s : Codes) : Dict * Codes :=
  (∅, s).


(** A store to start from: nothing set on the grant instance, no token
    generated, nothing logged. *)
Definition start (req : Request) (codes : Codes) : Store Codes :=
  mkStore req (mkSelf None None None) codes 0 [].

(** The authorization request of the specification's examples. *)
Definition request_abc : Request :=
  mkRequest (Some "abc") (Some "code") (Some "https://app.example/cb")
    None (Some "xyz") None None None ∅.

(** The same request for the implicit grant, without state. *)
Definition request_token : Request :=
  mkRequest (Some "abc") (Some "token") (Some "https://app.example/cb")
    None None None None None ∅.

(** A request without [client_id]. *)
Definition request_anonymous : Request :=
  mkRequest None (Some "code") (Some "https://app.example/cb")
    None (Some "xyz") None None None ∅.

(** A request to redeem [code] at the token endpoint. *)
Definition request_redeem (code : string) : Request :=
  mkRequest (Some "abc") (Some "code") None None None
    (Some "authorization_code") None (Some "abc")
    (<["code" := code]> (<["redirect_uri" := "https://app.example/cb"]> ∅)).

(** What a JSON response has under [key]. *)
Definition answered (key : string)
    (run : (Exception + Dict) * Store Codes) : option Value :=
  match fst run with
  | inr body => body !! key
  | inl _ => None
  end.

End Example.

(** * Properties *)

(** ** Running a method step by step *)

Ltac unfold_monad :=
  unfold bind, unless, raise_error, raise, ret, the_request, the_self,
    call_, call, update_request, update_self, try_except, generate_token
    in *.

Ltac unfold_checks :=
  unfold Validator.ordered_checks, Validator.in_order,
    Validator.client_id_present, Validator.response_type_present,
    Validator.client_authority, Validator.response_type_supported,
    Validator.scope_resolution, Validator.redirect_uri_resolution,
    Validator.else_, Validator.ask, Validator.with_request in *.

(** Every branch of a method, one goal each. *)
Ltac branches :=
  repeat (case_match; cbn in *; simplify_eq; try reflexivity).

(** ** The shared validator *)

Section Validate_request.

Context {S : Type}.
Variable is_absolute_uri : option string -> bool.
Variable hooks : AuthorizationBase.Hooks S.

(** How the validator leaves the store, whatever its verdict: of the
    request it writes [scopes] and [redirect_uri] and nothing else, each
    only when it was absent and then with what the default hook returned;
    the grant instance and the token supply are not touched; the log only
    grows; an error carries the state of the request. *)
Lemma validate_request_effect (st st' : Store S) r :
  AuthorizationBase.validate_request is_absolute_uri hooks st = (r, st') ->
  let req := request st in
  exists calls,
    request st'
      = set_redirect_uri (redirect_uri (request st'))
          (set_scopes (scopes (request st')) req)
    /\ self st' = self st
    /\ generated st' = generated st
    /\ log st' = (log st ++ calls)%list
    /\ (scopes (request st') = scopes req
        \/ truthy (scopes req) = false
           /\ exists default,
                scopes (request st') = Some default
                /\ Called_get_default_scopes (client_id req) default
                   ∈ calls)
    /\ (redirect_uri (request st') = redirect_uri req
        \/ truthy (redirect_uri req) = false
           /\ Called_get_default_redirect_uri (client_id req)
                (redirect_uri (request st')) ∈ calls)
    /\ (r = inr true
        /\ truthy (redirect_uri (request st')) = true
        /\ (truthy (scopes req) = false ->
            exists default,
              scopes (request st') = Some default
              /\ Called_get_default_scopes (client_id req) default
                 ∈ calls)
        \/ exists e, r = inl (OAuth2 e) /\ errors.state e = state req).
Proof.
  destruct st as [req o s n l]. intros H req'. subst req'.
  unfold AuthorizationBase.validate_request in H. unfold_monad.
  cbn in *. destruct req as [cid rt ru sc stt gt cd cl ps]. cbn in *.
  branches.
  all: eexists; cbn.
  all: (split; [reflexivity|]); (split; [reflexivity|]);
    (split; [reflexivity|]).
  all: (split;
    [first [ symmetry; apply app_nil_r
           | reflexivity
           | rewrite <- !app_assoc; reflexivity ] |]).
  all: (split;
    [first [ left; reflexivity
           | right; split; [first [assumption | reflexivity]|];
             eexists; split; [reflexivity|];
             apply list_elem_of_In; cbn; tauto ] |]).
  all: (split;
    [first [ left; reflexivity
           | right; split; [first [assumption | reflexivity]|];
             apply list_elem_of_In; cbn; tauto ] |]).
  all: first
    [ left; split; [reflexivity|]; split; [assumption|];
      first [ congruence
            | intros _; eexists; split; [reflexivity|];
              apply list_elem_of_In; cbn; tauto ]
    | right; eexists; split; reflexivity ].
Qed.


End Validate_request.

(** C2. The shared validator applies its checks in the fixed order
    (1) client_id present, (2) response_type present, (3) client authority,
    (4) response_type supported, (5) scope validation or defaulting,
    (6) redirect URI absolute, authorized or defaulted, and stops at the
    first one that fails with that check's error; when client_id or
    response_type is missing it raises InvalidRequest and leaves the store
    as it was (no hook was called: the log and the backend are untouched),
    the same error whatever the hooks are. *)
Theorem validate_request_ordered_checks {S : Type}
    (is_absolute_uri : option string -> bool)
    (hooks : AuthorizationBase.Hooks S) (st : Store S) :
  AuthorizationBase.validate_request is_absolute_uri hooks st
    = Validator.result_of
        (Validator.in_order
           (Validator.ordered_checks is_absolute_uri hooks) st)
  /\ (truthy (client_id (request st)) = false
      \/ truthy (response_type (request st)) = false ->
      exists e,
        errors.kind e = errors.InvalidRequest
        /\ forall is_absolute_uri' (hooks' : AuthorizationBase.Hooks S),
             AuthorizationBase.validate_request is_absolute_uri' hooks' st
             = (inl (OAuth2 e), st)).
Proof.
  split.
  - destruct st as [req o s n l].
    unfold AuthorizationBase.validate_request. unfold_checks. unfold_monad.
    cbn. branches.
  - intros H. destruct st as [req o s n l]; cbn in H.
    destruct (truthy (client_id req)) eqn:Hc.
    + destruct H as [H | H]; [discriminate|].
      exists (errors.InvalidRequestError (state req)
                (Some "Missing response_type parameter.")).
      split; [reflexivity|]. intros abs' hooks'.
      unfold AuthorizationBase.validate_request. unfold_monad. cbn.
      rewrite Hc, H. reflexivity.
    + exists (errors.InvalidRequestError (state req)
                (Some "Missing client_id parameter.")).
      split; [reflexivity|]. intros abs' hooks'.
      unfold AuthorizationBase.validate_request. unfold_monad. cbn.
      rewrite Hc. reflexivity.
Qed.

Lemma validate_request_ordered_checks_witness :
  exists e,
    errors.kind e = errors.InvalidRequest
    /\ AuthorizationBase.validate_request Example.has_scheme
         (Example.base_hooks ["abc"] ["read"] None)
         (Example.start Example.request_anonymous [])
       = (inl (OAuth2 e), Example.start Example.request_anonymous []).
Proof.
  destruct (validate_request_ordered_checks Example.has_scheme
              (Example.base_hooks ["abc"] ["read"] None)
              (Example.start Example.request_anonymous [])) as [_ H].
  destruct H as (e & Hk & He); [left; reflexivity|].
  exists e. split; [exact Hk | apply He].
Defined.

(** C6 (amended). The validator writes only [scopes] and [redirect_uri] of
    the request, each only when it was absent and then with what the
    collaborator's default hook returned; every other attribute of the
    request is unchanged.  When validation succeeds [redirect_uri] is
    populated, and [scopes] holds the request's own scopes when it carried
    some, else whatever the collaborator's default-scope hook returned. *)
Theorem validate_request_frame {S : Type}
    (is_absolute_uri : option string -> bool)
    (hooks : AuthorizationBase.Hooks S) (st st' : Store S) r :
  AuthorizationBase.validate_request is_absolute_uri hooks st = (r, st') ->
  let req := request st in
  let req' := request st' in
  exists calls,
    log st' = (log st ++ calls)%list
    /\ client_id req' = client_id req
    /\ response_type req' = response_type req
    /\ state req' = state req
    /\ grant_type req' = grant_type req
    /\ code req' = code req
    /\ client req' = client req
    /\ params req' = params req
    /\ (scopes req' = scopes req
        \/ truthy (scopes req) = false
           /\ exists default,
                scopes req' = Some default
                /\ Called_get_default_scopes (client_id req) default
                   ∈ calls)
    /\ (redirect_uri req' = redirect_uri req
        \/ truthy (redirect_uri req) = false
           /\ Called_get_default_redirect_uri (client_id req)
                (redirect_uri req') ∈ calls)
    /\ (r = inr true ->
        truthy (redirect_uri req') = true
        /\ (truthy (scopes req) = true /\ scopes req' = scopes req
            \/ truthy (scopes req) = false
               /\ exists default,
                    scopes req' = Some default
                    /\ Called_get_default_scopes (client_id req) default
                       ∈ calls)).
Proof.
  intros H req req'.
  destruct (validate_request_effect _ _ _ _ _ H)
    as (calls & Hreq & _ & _ & Hlog & Hsc & Hru & Hr).
  fold req in Hreq, Hsc, Hru, Hr. fold req' in Hreq, Hsc, Hru, Hr.
  exists calls. split; [exact Hlog|].
  repeat (split; [rewrite Hreq; reflexivity|]).
  split; [exact Hsc|]. split; [exact Hru|].
  intros ->. destruct Hr as [(_ & Ht & Hd) | (e & He & _)]; [|discriminate].
  split; [exact Ht|].
  destruct (truthy (scopes req)) eqn:Hs.
  - left. split; [reflexivity|].
    destruct Hsc as [Hsc | [Hsc _]]; [exact Hsc | discriminate].
  - right. split; [reflexivity|]. apply Hd. reflexivity.
Qed.

Lemma validate_request_frame_witness :
  let run :=
    AuthorizationBase.validate_request Example.has_scheme
      (Example.base_hooks ["abc"] ["read"] None)
      (Example.start Example.request_abc []) in
  fst run = inr true
  /\ state (request (snd run)) = Some "xyz"
  /\ truthy (redirect_uri (request (snd run))) = true
  /\ exists default, scopes (request (snd run)) = Some default.
Proof.
  cbv zeta.
  assert (Hv :
    AuthorizationBase.validate_request Example.has_scheme
      (Example.base_hooks ["abc"] ["read"] None)
      (Example.start Example.request_abc [])
    = (inr true,
       snd (AuthorizationBase.validate_request Example.has_scheme
              (Example.base_hooks ["abc"] ["read"] None)
              (Example.start Example.request_abc []))))
    by (vm_compute; reflexivity).
  destruct (validate_request_frame _ _ _ _ _ Hv)
    as (calls & _ & _ & _ & Hst & _ & _ & _ & _ & _ & _ & Hok).
  destruct (Hok eq_refl) as [Hru [[Hs _] | (_ & default & Hd & _)]];
    [discriminate Hs|].
  split; [rewrite Hv; reflexivity|]. split; [exact Hst|].
  split; [exact Hru|]. exists default. exact Hd.
Defined.

(** C6, as stated, fails: with a backend whose default scopes are empty,
    validation succeeds and leaves [scopes] empty. *)
Lemma validate_request_scopes_not_populated :
  let run :=
    AuthorizationBase.validate_request Example.has_scheme
      (Example.base_hooks ["abc"] [] None)
      (Example.start Example.request_token []) in
  fst run = inr true
  /\ truthy (redirect_uri (request (snd run))) = true
  /\ truthy (scopes (request (snd run))) = false.
Proof. vm_compute. repeat split. Qed.

(** C9 (amended). When the validator succeeds, the resolved [scopes] are
    the request's own, non-empty, scopes when it carried some; when it
    carried none they are what the collaborator's default-scope hook
    returned, unchecked: non-empty exactly when that default is. *)
Theorem validate_request_resolved_scopes {S : Type}
    (is_absolute_uri : option string -> bool)
    (hooks : AuthorizationBase.Hooks S) (st st' : Store S) :
  AuthorizationBase.validate_request is_absolute_uri hooks st
    = (inr true, st') ->
  let req := request st in
  (truthy (scopes req) = true
   /\ scopes (request st') = scopes req
   /\ truthy (scopes (request st')) = true)
  \/ (truthy (scopes req) = false
      /\ exists calls default,
           log st' = (log st ++ calls)%list
           /\ Called_get_default_scopes (client_id req) default ∈ calls
           /\ scopes (request st') = Some default
           /\ truthy (scopes (request st')) = truthy default).
Proof.
  intros H req.
  destruct (validate_request_effect _ _ _ _ _ H)
    as (calls & _ & _ & _ & Hlog & Hsc & _ & Hr).
  fold req in Hsc, Hr.
  destruct Hr as [(_ & _ & Hd) | (e & He & _)]; [|discriminate].
  destruct (truthy (scopes req)) eqn:Hs.
  - left. split; [reflexivity|].
    destruct Hsc as [Hsc | [Hsc _]]; [|discriminate].
    rewrite Hsc. split; [reflexivity | exact Hs].
  - right. split; [reflexivity|].
    destruct (Hd eq_refl) as (default & Hdef & Hin).
    exists calls, default. rewrite Hdef. repeat split; assumption.
Qed.

Lemma validate_request_resolved_scopes_witness :
  let run :=
    AuthorizationBase.validate_request Example.has_scheme
      (Example.base_hooks ["abc"] ["read"] None)
      (Example.start Example.request_abc []) in
  fst run = inr true
  /\ exists default,
       scopes (request (snd run)) = Some default
       /\ truthy (scopes (request (snd run))) = truthy default.
Proof.
  cbv zeta.
  assert (Hv :
    AuthorizationBase.validate_request Example.has_scheme
      (Example.base_hooks ["abc"] ["read"] None)
      (Example.start Example.request_abc [])
    = (inr true,
       snd (AuthorizationBase.validate_request Example.has_scheme
              (Example.base_hooks ["abc"] ["read"] None)
              (Example.start Example.request_abc []))))
    by (vm_compute; reflexivity).
  destruct (validate_request_resolved_scopes _ _ _ _ Hv)
    as [(Hs & _) | (_ & calls & default & _ & _ & Hd & Ht)];
    [discriminate Hs|].
  split; [rewrite Hv; reflexivity|]. exists default. split; assumption.
Defined.

(** C9, as stated, fails: the request carries no scopes, the backend's
    default scopes are empty, validation succeeds and the resolved scopes
    are the empty list. *)
Lemma validate_request_empty_default_scopes :
  exists st',
    AuthorizationBase.validate_request Example.has_scheme
      (Example.base_hooks ["abc"] [] None)
      (Example.start Example.request_abc []) = (inr true, st')
    /\ scopes (request st') = Some [].
Proof. eexists. split; vm_compute; reflexivity. Qed.

(** ** The authorization code grant: the authorization endpoint *)

Section Code_authorization.

Context {S : Type}.
Variable is_absolute_uri : option string -> bool.
Variable token_at : nat -> string.
Variable hooks : AuthorizationCodeGrant.Hooks S.

(** The grant that [create_authorization_grant] makes in a store. *)
Lemma create_authorization_grant_run (st : Store S) :
  exists grant,
    AuthorizationCodeGrant.create_authorization_grant token_at st
      = (inr grant,
         mkStore (request st) (self st) (backend st)
           (Datatypes.S (generated st)) (log st))
    /\ grant !! "code" = Some (VStr (token_at (generated st)))
    /\ grant !! "state"
       = (if truthy (state (request st))
          then Some (to_value (state (request st)))
          else None)
    /\ forall key, key ≠ "code" -> key ≠ "state" -> grant !! key = None.
Proof.
  unfold AuthorizationCodeGrant.create_authorization_grant. unfold_monad.
  cbn. destruct (truthy (state (request st))); eexists;
    (split; [reflexivity|]).
  - split; [by rewrite lookup_insert_ne, lookup_insert_eq|].
    split; [by rewrite lookup_insert_eq|].
    intros key Hc Hs. by rewrite !lookup_insert_ne, lookup_empty.
  - split; [by rewrite lookup_insert_eq|].
    split; [by rewrite lookup_insert_ne, lookup_empty|].
    intros key Hc Hs. by rewrite lookup_insert_ne, lookup_empty.
Qed.

(** When the validator raises, the error goes to the query of
    [request.redirect_uri] as the validator left it. *)
Lemma code_authorization_on_error (st st1 : Store S) e :
  AuthorizationBase.validate_request is_absolute_uri
    (AuthorizationCodeGrant.base hooks) st = (inl (OAuth2 e), st1) ->
  AuthorizationCodeGrant.create_authorization_response is_absolute_uri
    token_at hooks st
  = (inr (common.add_params_to_uri (redirect_uri (request st1))
            (errors.twotuples e) false),
     st1).
Proof.
  intros H. unfold AuthorizationCodeGrant.create_authorization_response.
  unfold bind at 1. unfold try_except. rewrite H. reflexivity.
Qed.

(** When the validator returns, the grant is made, set on the instance,
    saved through the hook and sent in the query. *)
Lemma code_authorization_on_success (st st1 : Store S) b :
  AuthorizationBase.validate_request is_absolute_uri
    (AuthorizationCodeGrant.base hooks) st = (inr b, st1) ->
  exists grant,
    AuthorizationCodeGrant.create_authorization_grant token_at st1
      = (inr grant,
         mkStore (request st1) (self st1) (backend st1)
           (Datatypes.S (generated st1)) (log st1))
    /\ AuthorizationCodeGrant.create_authorization_response
         is_absolute_uri token_at hooks st
       = (inr (common.add_params_to_uri (redirect_uri (request st1))
                 (items grant) false),
          mkStore (request st1) (set_self_grant grant (self st1))
            (AuthorizationCodeGrant.save_authorization_grant hooks
               (client_id (request st1)) grant (state (request st1))
               (backend st1))
            (Datatypes.S (generated st1))
            (log st1
               ++ [Called_save_authorization_grant
                     (client_id (request st1)) grant
                     (state (request st1))])).
Proof.
  intros H.
  destruct (create_authorization_grant_run st1) as (grant & Hg & _).
  exists grant. split; [exact Hg|].
  unfold AuthorizationCodeGrant.create_authorization_response.
  unfold bind at 1. unfold try_except. rewrite H.
  unfold bind at 1. rewrite Hg. reflexivity.
Qed.

End Code_authorization.

(** C3 (amended). For an authorization request whose client fails the
    collaborator's client authority check, as
    [{client_id: "abc", response_type: "code",
      redirect_uri: "https://app.example/cb", state: "xyz"}],
    [create_authorization_response] returns a redirect to the redirect URI
    the request supplied, with [error=unauthorized_client] and the state
    of the request in its query; the validator stops at the client
    authority check, so the default redirect URI is not asked for. *)
Theorem create_authorization_response_unauthorized_client {S : Type}
    (is_absolute_uri : option string -> bool) (token_at : nat -> string)
    (hooks : AuthorizationCodeGrant.Hooks S) (st : Store S) (s' : S) :
  let req := request st in
  truthy (client_id req) = true ->
  truthy (response_type req) = true ->
  AuthorizationBase.validate_client (AuthorizationCodeGrant.base hooks)
    (client_id req) [] (backend st) = (false, s') ->
  exists st',
    AuthorizationCodeGrant.create_authorization_response is_absolute_uri
      token_at hooks st
    = (inr (common.mkRedirect (redirect_uri req)
              (("error", VStr "unauthorized_client")
                 :: errors.pair_of "state" (state req))
              []),
       st')
    /\ request st' = req
    /\ log st' = (log st ++ [Called_validate_client (client_id req) [] false])%list.
Proof.
  intros req Hc Hr Hv.
  assert (H :
    AuthorizationBase.validate_request is_absolute_uri
      (AuthorizationCodeGrant.base hooks) st
    = (inl (OAuth2 (errors.UnauthorizedClientError (state req))),
       mkStore req (self st) s' (generated st)
         (log st ++ [Called_validate_client (client_id req) [] false]))).
  { unfold AuthorizationBase.validate_request. unfold_monad.
    destruct st as [rq o s n l]. cbn in *. subst req.
    rewrite Hc, Hr. cbn. rewrite Hv. reflexivity. }
  exists (mkStore req (self st) s' (generated st)
            (log st ++ [Called_validate_client (client_id req) [] false])).
  split; [|split; reflexivity].
  rewrite (code_authorization_on_error _ token_at _ _ _ _ H).
  unfold common.add_params_to_uri, errors.twotuples. cbn.
  rewrite app_nil_r. reflexivity.
Qed.

Lemma create_authorization_response_unauthorized_client_witness :
  fst (AuthorizationCodeGrant.create_authorization_response
         Example.has_scheme Example.numbered
         (Example.code_hooks [] ["read"] None)
         (Example.start Example.request_abc []))
  = inr (common.mkRedirect (Some "https://app.example/cb")
           [("error", VStr "unauthorized_client"); ("state", VStr "xyz")]
           []).
Proof.
  destruct (create_authorization_response_unauthorized_client
              Example.has_scheme Example.numbered
              (Example.code_hooks [] ["read"] None)
              (Example.start Example.request_abc []) [])
    as (st' & H & _); [reflexivity | reflexivity | reflexivity |].
  rewrite H. reflexivity.
Defined.

(** C3, as stated, fails: the backend has a default redirect URI, the
    client is not authorized, and the redirect goes to the URI of the
    request, not to the default one. *)
Lemma create_authorization_response_not_to_default :
  let hooks :=
    Example.code_hooks [] ["read"] (Some "https://default.example/cb") in
  let run :=
    AuthorizationCodeGrant.create_authorization_response
      Example.has_scheme Example.numbered hooks
      (Example.start Example.request_abc []) in
  AuthorizationBase.validate_client (AuthorizationCodeGrant.base hooks)
    (Some "abc") [] [] = (false, [])
  /\ AuthorizationBase.get_default_redirect_uri
       (AuthorizationCodeGrant.base hooks) (Some "abc") []
     = (Some "https://default.example/cb", [])
  /\ (exists r,
        fst run = inr r
        /\ common.target r = Some "https://app.example/cb"
        /\ common.target r ≠ Some "https://default.example/cb").
Proof.
  split; [reflexivity|]. split; [reflexivity|].
  eexists. split; [vm_compute; reflexivity|].
  split; [reflexivity | discriminate].
Qed.

(** C4. For every authorization request that passes validation,
    [create_authorization_response] makes a grant whose code is the token
    freshly taken from the supply and whose state is that of the request
    exactly when the request carried one, sets it on the instance, saves
    it through [save_authorization_grant] with the client id and state of
    the request, and returns the redirect URI with the items of the grant
    appended to its query: a code parameter and, when the request carried
    state, the same state. *)
Theorem create_authorization_response_grant {S : Type}
    (is_absolute_uri : option string -> bool) (token_at : nat -> string)
    (hooks : AuthorizationCodeGrant.Hooks S) (st st1 : Store S) b :
  AuthorizationBase.validate_request is_absolute_uri
    (AuthorizationCodeGrant.base hooks) st = (inr b, st1) ->
  let req := request st in
  exists grant response st2,
    AuthorizationCodeGrant.create_authorization_response is_absolute_uri
      token_at hooks st = (inr response, st2)
    (* the grant *)
    /\ grant !! "code" = Some (VStr (token_at (generated st)))
    /\ generated st2 = Datatypes.S (generated st)
    /\ grant !! "state"
       = (if truthy (state req) then Some (to_value (state req)) else None)
    /\ (forall key, key ≠ "code" -> key ≠ "state" -> grant !! key = None)
    (* saved *)
    /\ self_grant (self st2) = Some grant
    /\ log st2
       = (log st1
            ++ [Called_save_authorization_grant (client_id req) grant
                  (state req)])%list
    /\ backend st2
       = AuthorizationCodeGrant.save_authorization_grant hooks
           (client_id req) grant (state req) (backend st1)
    (* returned *)
    /\ response
       = common.add_params_to_uri (redirect_uri (request st1))
           (items grant) false
    /\ truthy (common.target response) = true
    /\ common.fragment response = []
    /\ ("code", VStr (token_at (generated st))) ∈ common.query response
    /\ (forall s, state req = Some s -> truthy s = true ->
        ("state", VStr s) ∈ common.query response)
    /\ (truthy (state req) = false ->
        forall v, ("state", v) ∉ common.query response).
Proof.
  intros H req.
  destruct (validate_request_effect _ _ _ _ _ H)
    as (calls & Hreq & Hself & Hgen & Hlog & _ & _ & Hr).
  destruct Hr as [(_ & Hru & _) | (e & He & _)]; [|discriminate].
  assert (Hcid : client_id (request st1) = client_id req)
    by (rewrite Hreq; reflexivity).
  assert (Hst : state (request st1) = state req)
    by (rewrite Hreq; reflexivity).
  destruct (create_authorization_grant_run token_at st1)
    as (grant & Hg & Hcode & Hstate & Hother).
  destruct (code_authorization_on_success is_absolute_uri token_at hooks
              _ _ _ H) as (grant' & Hg' & Hresp).
  rewrite Hg in Hg'. injection Hg' as <-.
  rewrite Hgen in Hcode. rewrite Hst in Hstate.
  rewrite Hcid, Hst in Hresp.
  eexists grant, _, _. split; [exact Hresp|]. cbn.
  split; [exact Hcode|]. split; [by rewrite Hgen|].
  split; [exact Hstate|]. split; [exact Hother|].
  split; [reflexivity|]. split; [reflexivity|]. split; [reflexivity|].
  split; [reflexivity|]. split; [exact Hru|]. split; [reflexivity|].
  unfold items. split; [by apply elem_of_map_to_list|].
  split.
  - intros s Hs Ht. apply elem_of_map_to_list. rewrite Hstate, Hs.
    change (truthy (Some s)) with (truthy s). by rewrite Ht.
  - intros Ht v Hin. apply elem_of_map_to_list in Hin.
    rewrite Hstate, Ht in Hin. discriminate.
Qed.

Lemma create_authorization_response_grant_witness :
  exists response,
    fst (AuthorizationCodeGrant.create_authorization_response
           Example.has_scheme Example.numbered
           (Example.code_hooks ["abc"] ["read"] None)
           (Example.start Example.request_abc []))
    = inr response
    /\ common.target response = Some "https://app.example/cb"
    /\ ("code", VStr "token-0") ∈ common.query response
    /\ ("state", VStr "xyz") ∈ common.query response.
Proof.
  assert (Hv :
    AuthorizationBase.validate_request Example.has_scheme
      (AuthorizationCodeGrant.base
         (Example.code_hooks ["abc"] ["read"] None))
      (Example.start Example.request_abc [])
    = (inr true,
       snd (AuthorizationBase.validate_request Example.has_scheme
              (AuthorizationCodeGrant.base
                 (Example.code_hooks ["abc"] ["read"] None))
              (Example.start Example.request_abc []))))
    by (vm_compute; reflexivity).
  destruct (create_authorization_response_grant Example.has_scheme
              Example.numbered (Example.code_hooks ["abc"] ["read"] None)
              _ _ _ Hv)
    as (grant & response & st2 & H & _ & _ & _ & _ & _ & _ & _ & Hr & _ & _
        & Hcode & Hstate & _).
  exists response. rewrite H. split; [reflexivity|].
  split; [rewrite Hr; reflexivity|].
  split; [exact Hcode|]. apply Hstate; reflexivity.
Defined.

(** ** The authorization code grant: the token endpoint *)

Arguments AuthorizationBase.validate_request : simpl never.

Section Code_token.

Context {S : Type}.
Variable is_absolute_uri : option string -> bool.
Variable token_at : nat -> string.
Variable hooks : AuthorizationCodeGrant.Hooks S.

(** The validator only calls hooks of the base class. *)
Lemma validate_request_calls (base : AuthorizationBase.Hooks S)
    (st st' : Store S) r :
  AuthorizationBase.validate_request is_absolute_uri base st = (r, st') ->
  exists calls,
    log st' = (log st ++ calls)%list
    /\ forallb of_base_class calls = true.
Proof.
  destruct st as [req o s n l]. intros H.
  unfold AuthorizationBase.validate_request in H. unfold_monad.
  cbn in *. branches; eexists.
  all: split;
    [first [ symmetry; apply app_nil_r
           | reflexivity
           | rewrite <- !app_assoc; reflexivity ]
    | reflexivity].
Qed.

(** The store in which [create_token_response] runs the validator: [code]
    and [redirect_uri] of the request are those of the wire parameters. *)
Lemma create_token_response_unfold
    (token_handler : Dict -> S -> Dict * S) (st : Store S) :
  let req := request st in
  let st0 :=
    mkStore
      (set_redirect_uri (params req !! "redirect_uri")
         (set_code (params req !! "code") req))
      (self st) (backend st) (generated st) (log st) in
  AuthorizationCodeGrant.create_token_response is_absolute_uri token_at
    hooks token_handler st
  = match
      AuthorizationBase.validate_request is_absolute_uri
        (AuthorizationCodeGrant.base hooks) st0
    with
    | (inl (OAuth2 e), st1) => (inr (errors.json e), st1)
    | (inl e, st1) => (inl e, st1)
    | (inr _, st1) =>
        let (scopes, s1) :=
          AuthorizationCodeGrant.get_scopes hooks (client (request st1))
            (code (request st1)) (backend st1) in
        let token : Dict :=
          <["access_token" := VStr (token_at (generated st1))]>
          (<["refresh_token" :=
               VStr (token_at (Datatypes.S (generated st1)))]>
          (<["expires_in" := VInt 3600]>
          (<["scope" := VStr (join " " scopes)]> ∅))) in
        let (token', s2) := token_handler token s1 in
        (inr token',
         mkStore (request st1)
           (mkSelf (self_grant (self st1)) (Some token') (Some scopes))
           s2 (Datatypes.S (Datatypes.S (generated st1)))
           (log st1
              ++ [Called_get_scopes (client (request st1))
                    (code (request st1)) scopes;
                  Called_token_handler token token']))
    end.
Proof.
  intros req st0.
  unfold AuthorizationCodeGrant.create_token_response.
  unfold bind, the_request, update_request, try_except. cbn.
  fold req. fold st0.
  destruct (AuthorizationBase.validate_request is_absolute_uri
              (AuthorizationCodeGrant.base hooks) st0) as [[e | b] st1].
  - destruct e; reflexivity.
  - unfold AuthorizationCodeGrant.create_token. unfold_monad. cbn.
    destruct (AuthorizationCodeGrant.get_scopes hooks _ _ _)
      as [scopes s1]. cbn.
    destruct (token_handler _ s1) as [token' s2]. cbn.
    rewrite <- app_assoc. reflexivity.
Qed.

(** [create_token_response] never asks the backend whether the code is
    valid, and never answers [invalid_grant]: it answers with the error of
    the shared validator, or with what the token handler returned. *)
Lemma create_token_response_never_validates_code
    (token_handler : Dict -> S -> Dict * S) (st st' : Store S) r :
  AuthorizationCodeGrant.create_token_response is_absolute_uri token_at
    hooks token_handler st = (r, st') ->
  exists calls,
    log st' = (log st ++ calls)%list
    /\ (forall client code ok,
          Called_validate_code client code ok ∉ calls)
    /\ ((exists e,
           r = inr (errors.json e)
           /\ errors.kind e ≠ errors.InvalidGrant)
        \/ exists token token',
             r = inr token' /\ Called_token_handler token token' ∈ calls).
Proof.
  rewrite create_token_response_unfold. cbn zeta.
  destruct (AuthorizationBase.validate_request _ _ _) as [[e | b] st1] eqn:Hv.
  - destruct (validate_request_calls _ _ _ _ Hv) as (calls & Hlog & Hbase).
    destruct (validate_request_effect _ _ _ _ _ Hv)
      as (calls' & _ & _ & _ & _ & _ & _ & Hr).
    destruct Hr as [(Hr & _) | (e' & He' & _)]; [discriminate|].
    simplify_eq. intros [= <- <-].
    exists calls. split; [exact Hlog|]. split.
    + intros cl cd ok Hin. apply list_elem_of_In in Hin.
      rewrite forallb_forall in Hbase. apply Hbase in Hin. discriminate.
    + left. exists e'. split; [reflexivity|].
      revert Hv. unfold AuthorizationBase.validate_request. unfold_monad.
      cbn. intros Hv. branches. all: discriminate.
  - destruct (validate_request_calls _ _ _ _ Hv) as (calls & Hlog & Hbase).
    destruct (AuthorizationCodeGrant.get_scopes hooks _ _ _)
      as [scopes s1].
    destruct (token_handler _ s1) as [token' s2] eqn:Hh.
    intros [= <- <-]. cbn in *.
    eexists. split; [rewrite Hlog, <- app_assoc; reflexivity|]. split.
    + intros cl cd ok Hin. apply elem_of_app in Hin as [Hin | Hin].
      * apply list_elem_of_In in Hin.
        rewrite forallb_forall in Hbase. apply Hbase in Hin. discriminate.
      * apply list_elem_of_In in Hin. cbn in Hin.
        destruct Hin as [? | [? | []]]; discriminate.
    + right. eexists _, token'. split; [reflexivity|].
      apply elem_of_app. right. apply list_elem_of_In. cbn. tauto.
Qed.

End Code_token.

(** C1. The claim: every redemption through [create_token_response]
    invokes [validate_code], and redeeming a code a second time answers
    [InvalidGrant].  The code does not: a code is issued and saved, then
    redeemed twice through [create_token_response] with the backend of
    [Example], whose [validate_code] accepts a code once.  Both
    redemptions answer with a token: [validate_code] is never called, so
    the code stays outstanding.  [validate_token_request], on the same
    stores, accepts the first redemption and raises [InvalidGrant] on the
    second.  A code that was never issued is redeemed as well. *)
Theorem create_token_response_redeems_twice :
  let hooks := Example.code_hooks ["abc"] ["read"] None in
  let issue :=
    AuthorizationCodeGrant.create_authorization_response
      Example.has_scheme Example.numbered hooks
      (Example.start Example.request_abc []) in
  let redeem (code : string) (st : Store Example.Codes) :=
    AuthorizationCodeGrant.create_token_response Example.has_scheme
      Example.numbered hooks Example.unchanged
      (Validator.with_request (fun _ => Example.request_redeem code) st) in
  let check (st : Store Example.Codes) :=
    AuthorizationCodeGrant.validate_token_request hooks
      (Validator.with_request
         (fun _ => set_code (Some "token-0")
                     (Example.request_redeem "token-0")) st) in
  let first := redeem "token-0" (snd issue) in
  let second := redeem "token-0" (snd first) in
  let unknown := redeem "never-issued" (Example.start Example.request_abc []) in
  backend (snd issue) = ["token-0"]
  /\ Example.answered "access_token" first = Some (VStr "token-1")
  /\ Example.answered "error" first = None
  /\ Example.answered "access_token" second = Some (VStr "token-3")
  /\ Example.answered "error" second = None
  /\ backend (snd second) = ["token-0"]
  /\ existsb of_validate_code (log (snd second)) = false
  /\ Example.answered "access_token" unknown = Some (VStr "token-0")
  /\ Example.answered "error" unknown = None
  /\ fst (check (snd issue)) = inr tt
  /\ fst (check (snd (check (snd issue))))
     = inl (OAuth2 errors.InvalidGrantError).
Proof.
  cbv zeta. repeat split; vm_compute; reflexivity.
Qed.

(** ** The implicit grant *)

Section Implicit.

Context {S : Type}.
Variable is_absolute_uri : option string -> bool.
Variable token_at : nat -> string.
Variable hooks : ImplicitGrant.Hooks S.

(** [create_token] on a request whose scopes are set. *)
Lemma implicit_create_token_run (st : Store S) (l : list string) :
  scopes (request st) = Some l ->
  ImplicitGrant.create_token token_at st
  = (inr (<["access_token" := VStr (token_at (generated st))]>
         (<["expires_in" := VInt 3600]>
         (<["scope" := VStr (join " " l)]>
         (<["state" := to_value (state (request st))]> ∅)))),
     mkStore (request st) (self st) (backend st)
       (Datatypes.S (generated st)) (log st)).
Proof.
  intros H. unfold ImplicitGrant.create_token. unfold_monad. cbn.
  rewrite H. reflexivity.
Qed.

(** The response of the implicit grant, by the verdict of the validator. *)
Lemma implicit_response_unfold
    (token_handler : Self -> Dict -> S -> Dict * S) (st : Store S) :
  ImplicitGrant.create_authorization_response is_absolute_uri token_at
    hooks token_handler st
  = match
      AuthorizationBase.validate_request is_absolute_uri
        (ImplicitGrant.base hooks) st
    with
    | (inl (OAuth2 e), st1) =>
        (inr (common.add_params_to_uri (redirect_uri (request st1))
                (errors.twotuples e) true),
         st1)
    | (inl e, st1) => (inl e, st1)
    | (inr _, st1) =>
        match ImplicitGrant.create_token token_at st1 with
        | (inr token, st2) =>
            let (token', s3) :=
              token_handler (set_self_token token (self st2)) token
                (backend st2) in
            (inr (common.add_params_to_uri (redirect_uri (request st2))
                    (items token') true),
             mkStore (request st2)
               (set_self_token token' (set_self_token token (self st2)))
               (ImplicitGrant.save_grant hooks (client_id (request st2))
                  token' (state (request st2)) s3)
               (generated st2)
               (log st2
                  ++ [Called_token_handler token token';
                      Called_save_grant (client_id (request st2)) token'
                        (state (request st2))]))
        | (inl e, st2) => (inl e, st2)
        end
    end.
Proof.
  unfold ImplicitGrant.create_authorization_response.
  unfold bind at 1. unfold try_except.
  destruct (AuthorizationBase.validate_request is_absolute_uri
              (ImplicitGrant.base hooks) st) as [[e | b] st1].
  - destruct e; reflexivity.
  - unfold bind at 1.
    destruct (ImplicitGrant.create_token token_at st1) as [[e | token] st2];
      [reflexivity|].
    unfold_monad. cbn.
    destruct (token_handler _ token (backend st2)) as [token' s3]. cbn.
    rewrite <- app_assoc. reflexivity.
Qed.

End Implicit.

(** C5 (amended). Whatever the request, the implicit grant's
    [create_authorization_response] returns a redirect and appends
    nothing to the query: when the validator raises, the error's pairs are
    the fragment parameters on the redirect URI; when it returns, the
    fragment parameters are the items of what the token handler returned
    for the token [{access_token, expires_in: 3600, scope, state}], so
    they contain [access_token], [expires_in=3600] and [scope] whenever
    the handler kept those entries. *)
Theorem implicit_response_in_fragment {S : Type}
    (is_absolute_uri : option string -> bool) (token_at : nat -> string)
    (hooks : ImplicitGrant.Hooks S)
    (token_handler : Self -> Dict -> S -> Dict * S) (st : Store S) :
  exists response st',
    ImplicitGrant.create_authorization_response is_absolute_uri token_at
      hooks token_handler st = (inr response, st')
    /\ common.query response = []
    /\ (forall e st1,
          AuthorizationBase.validate_request is_absolute_uri
            (ImplicitGrant.base hooks) st = (inl (OAuth2 e), st1) ->
          common.target response = redirect_uri (request st1)
          /\ common.fragment response = errors.twotuples e)
    /\ (forall b st1,
          AuthorizationBase.validate_request is_absolute_uri
            (ImplicitGrant.base hooks) st = (inr b, st1) ->
          exists l token token' s',
            scopes (request st1) = Some l
            /\ token !! "access_token"
               = Some (VStr (token_at (generated st)))
            /\ token !! "expires_in" = Some (VInt 3600)
            /\ token !! "scope" = Some (VStr (join " " l))
            /\ token_handler (set_self_token token (self st)) token
                 (backend st1) = (token', s')
            /\ common.target response = redirect_uri (request st1)
            /\ common.fragment response = items token'
            /\ ((forall key,
                   key ∈ ["access_token"; "expires_in"; "scope"] ->
                   token' !! key = token !! key) ->
                ("access_token", VStr (token_at (generated st)))
                  ∈ common.fragment response
                /\ ("expires_in", VInt 3600) ∈ common.fragment response
                /\ ("scope", VStr (join " " l))
                     ∈ common.fragment response)).
Proof.
  rewrite implicit_response_unfold.
  destruct (AuthorizationBase.validate_request is_absolute_uri
              (ImplicitGrant.base hooks) st) as [r st1] eqn:Hv.
  destruct (validate_request_effect _ _ _ _ _ Hv)
    as (calls & _ & Hself & Hgen & _ & Hsc & _ & Hr).
  destruct Hr as [(-> & _ & Hd) | (e & -> & _)].
  - assert (Hl : exists l, scopes (request st1) = Some l).
    { destruct (truthy (scopes (request st))) eqn:Ht.
      - destruct Hsc as [Hsc | [Hsc _]]; [|discriminate].
        rewrite Hsc. destruct (scopes (request st)); [eauto | discriminate].
      - destruct (Hd eq_refl) as (default & Hdef & _). eauto. }
    destruct Hl as [l Hl].
    pose proof (implicit_create_token_run token_at st1 l Hl) as Hct.
    match type of Hct with _ = (inr ?t, _) => set (token := t) in * end.
    rewrite Hct. cbn.
    destruct (token_handler _ token (backend st1)) as [token' s'] eqn:Hh.
    eexists _, _. split; [reflexivity|]. split; [reflexivity|].
    split; [intros e st1' [=]|].
    intros b st1' [= <- <-].
    exists l, token, token', s'. subst token.
    split; [exact Hl|].
    split; [by rewrite lookup_insert_eq, Hgen|].
    split; [by rewrite lookup_insert_ne, lookup_insert_eq|].
    split; [by do 2 (rewrite lookup_insert_ne by done);
             rewrite lookup_insert_eq|].
    split; [rewrite <- Hself; exact Hh|].
    split; [reflexivity|]. split; [reflexivity|].
    intros Hkeep. cbn. unfold items.
    rewrite !elem_of_map_to_list.
    rewrite !Hkeep by (apply list_elem_of_In; cbn; tauto).
    split; [by rewrite lookup_insert_eq, Hgen|].
    split; [by rewrite lookup_insert_ne, lookup_insert_eq|].
    by do 2 (rewrite lookup_insert_ne by done); rewrite lookup_insert_eq.
  - eexists _, _. split; [reflexivity|]. split; [reflexivity|].
    split; [|intros b st1' [=]].
    intros e' st1' [= <- <-]. split; reflexivity.
Qed.

Lemma implicit_response_in_fragment_witness :
  exists response,
    fst (ImplicitGrant.create_authorization_response Example.has_scheme
           Example.numbered (Example.implicit_hooks ["abc"] ["read"] None)
           (fun _ => Example.unchanged)
           (Example.start Example.request_token []))
    = inr response
    /\ common.query response = []
    /\ ("access_token", VStr "token-0") ∈ common.fragment response
    /\ ("expires_in", VInt 3600) ∈ common.fragment response
    /\ ("scope", VStr "read") ∈ common.fragment response.
Proof.
  destruct (implicit_response_in_fragment Example.has_scheme
              Example.numbered
              (Example.implicit_hooks ["abc"] ["read"] None)
              (fun _ => Example.unchanged)
              (Example.start Example.request_token []))
    as (response & st' & H & Hq & _ & Hok).
  exists response. rewrite H. split; [reflexivity|]. split; [exact Hq|].
  assert (Hv :
    AuthorizationBase.validate_request Example.has_scheme
      (ImplicitGrant.base (Example.implicit_hooks ["abc"] ["read"] None))
      (Example.start Example.request_token [])
    = (inr true,
       snd (AuthorizationBase.validate_request Example.has_scheme
              (ImplicitGrant.base
                 (Example.implicit_hooks ["abc"] ["read"] None))
              (Example.start Example.request_token []))))
    by (vm_compute; reflexivity).
  destruct (Hok _ _ Hv)
    as (l & token & token' & s' & Hl & _ & _ & _ & Hh & _ & _ & Hkeep).
  injection Hl as <-. injection Hh as <- _.
  apply Hkeep. reflexivity.
Defined.

(** C5, as stated, fails: the request passes validation, the token handler
    returns an empty token, and the fragment has no [access_token]. *)
Lemma implicit_response_without_access_token :
  let hooks := Example.implicit_hooks ["abc"] ["read"] None in
  let st := Example.start Example.request_token [] in
  fst (AuthorizationBase.validate_request Example.has_scheme
         (ImplicitGrant.base hooks) st) = inr true
  /\ exists response,
       fst (ImplicitGrant.create_authorization_response
              Example.has_scheme Example.numbered hooks
              (fun _ => Example.emptied) st)
       = inr response
       /\ forall v, ("access_token", v) ∉ common.fragment response.
Proof.
  cbv zeta. split; [vm_compute; reflexivity|].
  eexists. split; [vm_compute; reflexivity|].
  intros v Hin. cbn in Hin. by apply not_elem_of_nil in Hin.
Qed.

(** C10 (amended). For every successful implicit-grant request the token
    built by [create_token] has a [state] key even when the request
    supplied no state (the key is there with the value [None]); the
    success fragment is made of the items of what the token handler
    returned for that token, so it carries a state parameter whenever the
    handler kept the token's [state] entry.  The grant dictionary of the
    authorization code grant has a [state] key only when the request
    carried one. *)
Theorem implicit_token_state {S : Type}
    (is_absolute_uri : option string -> bool) (token_at : nat -> string)
    (hooks : ImplicitGrant.Hooks S)
    (token_handler : Self -> Dict -> S -> Dict * S)
    (st st1 : Store S) b :
  AuthorizationBase.validate_request is_absolute_uri
    (ImplicitGrant.base hooks) st = (inr b, st1) ->
  let req := request st in
  exists token st2 token' s' response st',
    ImplicitGrant.create_token token_at st1 = (inr token, st2)
    /\ token !! "state" = Some (to_value (state req))
    /\ (state req = None -> token !! "state" = Some VNone)
    /\ token_handler (set_self_token token (self st1)) token (backend st1)
       = (token', s')
    /\ ImplicitGrant.create_authorization_response is_absolute_uri
         token_at hooks token_handler st = (inr response, st')
    /\ common.fragment response = items token'
    /\ (forall v,
          ("state", v) ∈ common.fragment response
          <-> token' !! "state" = Some v)
    /\ (token' !! "state" = token !! "state" ->
        ("state", to_value (state req)) ∈ common.fragment response)
    /\ (forall code_st : Store S,
          exists grant code_st',
            AuthorizationCodeGrant.create_authorization_grant token_at
              code_st = (inr grant, code_st')
            /\ grant !! "state"
               = (if truthy (state (request code_st))
                  then Some (to_value (state (request code_st)))
                  else None)).
Proof.
  intros Hv req.
  destruct (validate_request_effect _ _ _ _ _ Hv)
    as (calls & Hreq & _ & _ & _ & Hsc & _ & Hr).
  destruct Hr as [(_ & _ & Hd) | (e & He & _)]; [|discriminate].
  assert (Hst : state (request st1) = state req)
    by (rewrite Hreq; reflexivity).
  assert (Hl : exists l, scopes (request st1) = Some l).
  { destruct (truthy (scopes (request st))) eqn:Ht.
    - destruct Hsc as [Hsc | [Hsc _]]; [|discriminate].
      rewrite Hsc. destruct (scopes (request st)); [eauto | discriminate].
    - destruct (Hd eq_refl) as (default & Hdef & _). eauto. }
  destruct Hl as [l Hl].
  pose proof (implicit_create_token_run token_at st1 l Hl) as Hct.
  match type of Hct with _ = (inr ?t, _) => set (token := t) in * end.
  assert (Hts : token !! "state" = Some (to_value (state req))).
  { subst token. do 3 (rewrite lookup_insert_ne by done).
    by rewrite lookup_insert_eq, Hst. }
  destruct (token_handler (set_self_token token (self st1)) token
              (backend st1)) as [token' s'] eqn:Hh.
  eexists token, _, token', s', _, _.
  split; [exact Hct|]. split; [exact Hts|].
  split; [intros Hn; by rewrite Hts, Hn|].
  split; [exact Hh|].
  split.
  { rewrite implicit_response_unfold, Hv, Hct. cbn. rewrite Hh.
    reflexivity. }
  cbn. split; [reflexivity|].
  split; [intros v; unfold items; apply elem_of_map_to_list|].
  split.
  { intros Hkeep. unfold items. apply elem_of_map_to_list.
    by rewrite Hkeep. }
  intros code_st.
  destruct (create_authorization_grant_run token_at code_st)
    as (grant & Hg & _ & Hgs & _).
  eauto.
Qed.

Lemma implicit_token_state_witness :
  exists response,
    fst (ImplicitGrant.create_authorization_response Example.has_scheme
           Example.numbered (Example.implicit_hooks ["abc"] ["read"] None)
           (fun _ => Example.unchanged)
           (Example.start Example.request_token []))
    = inr response
    /\ ("state", VNone) ∈ common.fragment response.
Proof.
  assert (Hv :
    AuthorizationBase.validate_request Example.has_scheme
      (ImplicitGrant.base (Example.implicit_hooks ["abc"] ["read"] None))
      (Example.start Example.request_token [])
    = (inr true,
       snd (AuthorizationBase.validate_request Example.has_scheme
              (ImplicitGrant.base
                 (Example.implicit_hooks ["abc"] ["read"] None))
              (Example.start Example.request_token []))))
    by (vm_compute; reflexivity).
  destruct (implicit_token_state Example.has_scheme Example.numbered
              (Example.implicit_hooks ["abc"] ["read"] None)
              (fun _ => Example.unchanged) _ _ _ Hv)
    as (token & st2 & token' & s' & response & st' & _ & _ & _ & Hh & H
        & _ & _ & Hkeep & _).
  exists response. rewrite H. split; [reflexivity|].
  injection Hh as <- _. apply Hkeep. reflexivity.
Defined.

(** C10, as stated, fails: the request passes validation and has no state,
    the token handler returns an empty token, and the fragment carries no
    state parameter. *)
Lemma implicit_response_without_state :
  let hooks := Example.implicit_hooks ["abc"] ["read"] None in
  let st := Example.start Example.request_token [] in
  fst (AuthorizationBase.validate_request Example.has_scheme
         (ImplicitGrant.base hooks) st) = inr true
  /\ exists response,
       fst (ImplicitGrant.create_authorization_response
              Example.has_scheme Example.numbered hooks
              (fun _ => Example.emptied) st)
       = inr response
       /\ forall v, ("state", v) ∉ common.fragment response.
Proof.
  cbv zeta. split; [vm_compute; reflexivity|].
  eexists. split; [vm_compute; reflexivity|].
  intros v Hin. cbn in Hin. by apply not_elem_of_nil in Hin.
Qed.

(** ** Tokens and errors *)

(** [create_token] of the authorization code grant returns once
    [self.scopes] is set. *)
Lemma code_create_token_run {S : Type} (token_at : nat -> string)
    (st : Store S) (l : list string) :
  self_scopes (self st) = Some l ->
  AuthorizationCodeGrant.create_token token_at st
  = (inr (<["access_token" := VStr (token_at (generated st))]>
         (<["refresh_token" :=
              VStr (token_at (Datatypes.S (generated st)))]>
         (<["expires_in" := VInt 3600]>
         (<["scope" := VStr (join " " l)]> ∅)))),
     mkStore (request st) (self st) (backend st)
       (Datatypes.S (Datatypes.S (generated st))) (log st)).
Proof.
  intros H. unfold AuthorizationCodeGrant.create_token. unfold_monad. cbn.
  rewrite H. reflexivity.
Qed.





(** C8. The redirect form and the JSON form of an error agree on state:
    when the error was made with a state, the pairs contain exactly one
    [state] pair, with that value, and the JSON object has that value under
    [state]; when it was made without, neither has a [state]. *)
Theorem error_forms_agree_on_state (e : errors.OAuth2Error) :
  match errors.state e with
  | Some s =>
      filter (fun p => p.1 = "state") (errors.twotuples e)
        = [("state", VStr s)]
      /\ errors.json e !! "state" = Some (VStr s)
  | None =>
      filter (fun p => p.1 = "state") (errors.twotuples e) = []
      /\ errors.json e !! "state" = None
  end.
Proof.
  destruct e as [k d [s|]]; destruct d as [d|]; cbn.
  all: unfold errors.twotuples, errors.json; cbn.
  all: split; [reflexivity|].
  all: unfold errors.with_field.
  all: first
    [ by rewrite lookup_insert_eq
    | by rewrite lookup_insert_ne, lookup_singleton_ne
    | by rewrite lookup_singleton_ne ].
Qed.

(** * More of the code *)

(** ** The token request validator *)

Section Token_request.

Context {S : Type}.
Variable hooks : AuthorizationCodeGrant.Hooks S.

(** [validate_token_request], branch by branch. *)
Lemma validate_token_request_unfold (st : Store S) :
  let req := request st in
  AuthorizationCodeGrant.validate_token_request hooks st
  = if bool_decide (grant_type req = Some "authorization_code")
    then
      if truthy (code req)
      then
        let (ok, s1) :=
          AuthorizationBase.validate_client
            (AuthorizationCodeGrant.base hooks) (client req)
            [grant_type req] (backend st) in
        if ok
        then
          let (valid, s2) :=
            AuthorizationCodeGrant.validate_code hooks (client req)
              (code req) s1 in
          (if valid then inr tt else inl (OAuth2 errors.InvalidGrantError),
           mkStore req (self st) s2 (generated st)
             (log st
                ++ [Called_validate_client (client req) [grant_type req]
                      true;
                    Called_validate_code (client req) (code req) valid]))
        else
          (inl (OAuth2 (errors.UnauthorizedClientError None)),
           mkStore req (self st) s1 (generated st)
             (log st
                ++ [Called_validate_client (client req) [grant_type req]
                      false]))
      else
        (inl (OAuth2 (errors.InvalidRequestError None
                        (Some "Missing code parameter."))),
         st)
    else (inl (OAuth2 errors.UnsupportedGrantTypeError), st).
Proof.
  destruct st as [req o s n l]. cbn.
  unfold AuthorizationCodeGrant.validate_token_request. unfold_monad. cbn.
  destruct (bool_decide (grant_type req = Some "authorization_code"));
    cbn; [|reflexivity].
  destruct (truthy (code req)); cbn; [|reflexivity].
  destruct (AuthorizationBase.validate_client _ _ _ s) as [[|] s1]; cbn;
    [|reflexivity].
  destruct (AuthorizationCodeGrant.validate_code _ _ _ s1) as [[|] s2];
    cbn; rewrite <- app_assoc; reflexivity.
Qed.

End Token_request.

(** X1. [validate_token_request] returns normally only for a request with
    [grant_type] ["authorization_code"] and a code, after the backend has
    accepted the client for that grant type and then the code: these are
    the two calls it made, in this order; it leaves the request, the grant
    instance and the token supply as they were. *)
Theorem validate_token_request_accepts {S : Type}
    (hooks : AuthorizationCodeGrant.Hooks S) (st st' : Store S) :
  AuthorizationCodeGrant.validate_token_request hooks st = (inr tt, st') ->
  let req := request st in
  grant_type req = Some "authorization_code"
  /\ truthy (code req) = true
  /\ log st'
     = (log st
          ++ [Called_validate_client (client req) [grant_type req] true;
              Called_validate_code (client req) (code req) true])%list
  /\ request st' = req
  /\ self st' = self st
  /\ generated st' = generated st.
Proof.
  rewrite validate_token_request_unfold. cbn zeta.
  case_bool_decide as Hg; [|discriminate].
  destruct (truthy (code (request st))); [|discriminate].
  destruct (AuthorizationBase.validate_client _ _ _ _) as [[|] s1];
    [|discriminate].
  destruct (AuthorizationCodeGrant.validate_code _ _ _ _) as [[|] s2];
    [|discriminate].
  intros [= <-]. cbn. repeat split; assumption || reflexivity.
Qed.

Lemma validate_token_request_accepts_witness :
  let st :=
    Example.start (set_code (Some "c") (Example.request_redeem "c")) ["c"] in
  exists st',
    AuthorizationCodeGrant.validate_token_request
      (Example.code_hooks ["abc"] ["read"] None) st = (inr tt, st')
    /\ log st'
       = [Called_validate_client (Some "abc") [Some "authorization_code"]
            true;
          Called_validate_code (Some "abc") (Some "c") true].
Proof.
  cbv zeta.
  assert (Hrun :
    AuthorizationCodeGrant.validate_token_request
      (Example.code_hooks ["abc"] ["read"] None)
      (Example.start (set_code (Some "c") (Example.request_redeem "c"))
         ["c"])
    = (inr tt,
       snd (AuthorizationCodeGrant.validate_token_request
              (Example.code_hooks ["abc"] ["read"] None)
              (Example.start
                 (set_code (Some "c") (Example.request_redeem "c"))
                 ["c"]))))
    by (vm_compute; reflexivity).
  destruct (validate_token_request_accepts _ _ _ Hrun)
    as (_ & _ & Hlog & _).
  eexists. split; [exact Hrun|]. rewrite Hlog. reflexivity.
Defined.

(** X2. Every error of [validate_token_request] is made without state,
    whatever the state of the request.  A wrong [grant_type] and a missing
    code are refused before any hook is called and leave the store as it
    was; an unauthorized client is refused without the code being looked
    at; [InvalidGrant] is raised exactly after [validate_code] was called
    and returned false.  The request, the grant instance and the token
    supply are never written. *)
Theorem validate_token_request_refuses {S : Type}
    (hooks : AuthorizationCodeGrant.Hooks S) (st st' : Store S) x :
  AuthorizationCodeGrant.validate_token_request hooks st = (inl x, st') ->
  let req := request st in
  exists e,
    x = OAuth2 e
    /\ errors.state e = None
    /\ request st' = req
    /\ self st' = self st
    /\ generated st' = generated st
    /\ ((errors.kind e = errors.UnsupportedGrantType
         /\ grant_type req ≠ Some "authorization_code"
         /\ st' = st)
        \/ (errors.kind e = errors.InvalidRequest
            /\ truthy (code req) = false
            /\ st' = st)
        \/ (errors.kind e = errors.UnauthorizedClient
            /\ log st'
               = (log st
                    ++ [Called_validate_client (client req)
                          [grant_type req] false])%list)
        \/ (errors.kind e = errors.InvalidGrant
            /\ log st'
               = (log st
                    ++ [Called_validate_client (client req)
                          [grant_type req] true;
                        Called_validate_code (client req) (code req)
                          false])%list)).
Proof.
  rewrite validate_token_request_unfold. cbn zeta.
  case_bool_decide as Hg.
  - destruct (truthy (code (request st))) eqn:Hc.
    + destruct (AuthorizationBase.validate_client _ _ _ _) as [[|] s1].
      * destruct (AuthorizationCodeGrant.validate_code _ _ _ _)
          as [[|] s2]; [discriminate|].
        intros [= <- <-]. eexists. split; [reflexivity|]. cbn.
        repeat (split; [reflexivity|]). right; right; right.
        split; reflexivity.
      * intros [= <- <-]. eexists. split; [reflexivity|]. cbn.
        repeat (split; [reflexivity|]). right; right; left.
        split; reflexivity.
    + intros [= <- <-]. eexists. split; [reflexivity|]. cbn.
      repeat (split; [reflexivity|]). right; left. repeat split.
  - intros [= <- <-]. eexists. split; [reflexivity|]. cbn.
    repeat (split; [reflexivity|]). left. repeat split. exact Hg.
Qed.

Lemma validate_token_request_refuses_witness :
  let st :=
    Example.start (set_code (Some "c") (Example.request_redeem "c")) [] in
  exists e st',
    AuthorizationCodeGrant.validate_token_request
      (Example.code_hooks ["abc"] ["read"] None) st
    = (inl (OAuth2 e), st')
    /\ errors.state e = None.
Proof.
  cbv zeta.
  assert (Hrun :
    AuthorizationCodeGrant.validate_token_request
      (Example.code_hooks ["abc"] ["read"] None)
      (Example.start (set_code (Some "c") (Example.request_redeem "c")) [])
    = (inl (OAuth2 errors.InvalidGrantError),
       snd (AuthorizationCodeGrant.validate_token_request
              (Example.code_hooks ["abc"] ["read"] None)
              (Example.start
                 (set_code (Some "c") (Example.request_redeem "c")) []))))
    by (vm_compute; reflexivity).
  destruct (validate_token_request_refuses _ _ _ _ Hrun)
    as (e & He & Hs & _).
  exists e. eexists. split; [rewrite Hrun, He; reflexivity | exact Hs].
Defined.

(** The backend of [Example] accepts a code once. *)
Lemma example_validate_code_once clients default_scopes default_redirect_uri
    client code (s s' : Example.Codes) :
  AuthorizationCodeGrant.validate_code
    (Example.code_hooks clients default_scopes default_redirect_uri)
    client code s = (true, s') ->
  fst (AuthorizationCodeGrant.validate_code
         (Example.code_hooks clients default_scopes default_redirect_uri)
         client code s') = false.
Proof.
  cbn. intros [= Ho <-]. destruct code as [c|]; [|discriminate Ho].
  cbn. apply bool_decide_eq_false. intros Hin.
  apply list_elem_of_filter in Hin as [Hne _]. by apply Hne.
Qed.

(** X3. With a backend whose client check does not write its state and
    whose [validate_code] rejects a code it has accepted, a token request
    that [validate_token_request] accepted is refused when validated
    again: with [InvalidGrant], or with [UnauthorizedClient] if the client
    is no longer accepted. *)
Theorem validate_token_request_single_use {S : Type}
    (hooks : AuthorizationCodeGrant.Hooks S) (st st1 : Store S) :
  (forall client args s,
     snd (AuthorizationBase.validate_client
            (AuthorizationCodeGrant.base hooks) client args s) = s) ->
  (forall client code s s',
     AuthorizationCodeGrant.validate_code hooks client code s = (true, s')
     -> fst (AuthorizationCodeGrant.validate_code hooks client code s')
        = false) ->
  AuthorizationCodeGrant.validate_token_request hooks st = (inr tt, st1) ->
  exists e st2,
    AuthorizationCodeGrant.validate_token_request hooks st1
    = (inl (OAuth2 e), st2)
    /\ (errors.kind e = errors.InvalidGrant
        \/ errors.kind e = errors.UnauthorizedClient).
Proof.
  intros Hclient Honce.
  rewrite !validate_token_request_unfold. cbn zeta.
  case_bool_decide as Hg; [|discriminate].
  destruct (truthy (code (request st))) eqn:Hc; [|discriminate].
  destruct (AuthorizationBase.validate_client _ _ _ (backend st))
    as [[|] s1]; [|discriminate].
  destruct (AuthorizationCodeGrant.validate_code _ _ _ s1)
    as [[|] s2] eqn:Hcode; [|discriminate].
  intros [= <-]. cbn.
  rewrite bool_decide_true by exact Hg. rewrite Hc.
  pose proof (Hclient (client (request st)) [grant_type (request st)] s2)
    as Hsame.
  destruct (AuthorizationBase.validate_client _ _ _ s2) as [[|] s3];
    cbn in Hsame; subst s3.
  - pose proof (Honce _ _ _ _ Hcode) as Hno.
    destruct (AuthorizationCodeGrant.validate_code _ _ _ s2) as [v s4].
    cbn in Hno. subst v. eexists _, _. split; [reflexivity|]. by left.
  - eexists _, _. split; [reflexivity|]. by right.
Qed.

Lemma validate_token_request_single_use_witness :
  let hooks := Example.code_hooks ["abc"] ["read"] None in
  let st :=
    Example.start (set_code (Some "c") (Example.request_redeem "c")) ["c"] in
  exists e st2,
    AuthorizationCodeGrant.validate_token_request hooks
      (snd (AuthorizationCodeGrant.validate_token_request hooks st))
    = (inl (OAuth2 e), st2)
    /\ (errors.kind e = errors.InvalidGrant
        \/ errors.kind e = errors.UnauthorizedClient).
Proof.
  cbv zeta.
  apply validate_token_request_single_use
    with (st := Example.start
                  (set_code (Some "c") (Example.request_redeem "c")) ["c"]).
  - reflexivity.
  - apply example_validate_code_once.
  - vm_compute. reflexivity.
Defined.

(** ** What the validator asks the backend *)

(** A goal [c ∈ l -> P] on an explicit list [l] of calls: one case per
    element. *)
Ltac each_call H :=
  apply list_elem_of_In in H; cbn in H;
  repeat (destruct H as [H | H]; [try discriminate H|]);
  try contradiction.

Section Validator_calls.

Context {S : Type}.
Variable is_absolute_uri : option string -> bool.
Variable hooks : AuthorizationBase.Hooks S.

(** The arguments of every call the validator makes. *)
Lemma validate_request_hook_arguments (st st' : Store S) r :
  AuthorizationBase.validate_request is_absolute_uri hooks st = (r, st') ->
  let req := request st in
  exists calls,
    log st' = (log st ++ calls)%list
    /\ (List.length calls <= 3)%nat
    /\ (r = inr true -> List.length calls = 3%nat)
    /\ (forall c, c ∈ calls ->
        truthy (client_id req) = true /\ truthy (response_type req) = true)
    /\ (forall cl args ok,
          Called_validate_client cl args ok ∈ calls ->
          cl = client_id req /\ args = [])
    /\ (forall cl sc ok,
          Called_validate_scopes cl sc ok ∈ calls ->
          cl = client_id req /\ sc = scopes req /\ truthy sc = true)
    /\ (forall cl d,
          Called_get_default_scopes cl d ∈ calls ->
          cl = client_id req /\ truthy (scopes req) = false
          /\ scopes (request st') = Some d)
    /\ (forall cl uri ok,
          Called_validate_redirect_uri cl uri ok ∈ calls ->
          cl = client_id req /\ uri = redirect_uri req
          /\ truthy uri = true /\ is_absolute_uri uri = true)
    /\ (forall cl d,
          Called_get_default_redirect_uri cl d ∈ calls ->
          cl = client_id req /\ truthy (redirect_uri req) = false
          /\ redirect_uri (request st') = d
          /\ r = (if truthy d
                  then inr true
                  else inl (OAuth2 (errors.AccessDeniedError (state req))))).
Proof.
  destruct st as [req o s n l]. intros H req'. subst req'.
  unfold AuthorizationBase.validate_request in H. unfold_monad.
  cbn in *. branches.
  all: eexists; cbn.
  all: (split;
    [first [ symmetry; apply app_nil_r
           | reflexivity
           | rewrite <- !app_assoc; reflexivity ] |]).
  all: (split; [cbn; lia|]).
  all: (split; [first [discriminate | reflexivity]|]).
  all: repeat split.
  all: try (intros; match goal with
                    | Hin : _ ∈ _ |- _ => each_call Hin
                    end; simplify_eq; cbn;
            first [done | congruence
                  | match goal with
                    | Ht : truthy _ = _ |- _ => rewrite Ht; reflexivity
                    end]).
Qed.

End Validator_calls.

(** X4. The validator consults the backend at most three times, exactly
    three times when it succeeds, and only once [client_id] and
    [response_type] are present.  Every call is made for the [client_id]
    of the request; [validate_scopes] only gets the non-empty scopes of
    the request, and [validate_redirect_uri] only gets the redirect URI of
    the request when it is present and absolute. *)
Theorem validate_request_asks_well_formed {S : Type}
    (is_absolute_uri : option string -> bool)
    (hooks : AuthorizationBase.Hooks S) (st st' : Store S) r :
  AuthorizationBase.validate_request is_absolute_uri hooks st = (r, st') ->
  let req := request st in
  exists calls,
    log st' = (log st ++ calls)%list
    /\ (List.length calls <= 3)%nat
    /\ (r = inr true -> List.length calls = 3%nat)
    /\ (forall c, c ∈ calls ->
        truthy (client_id req) = true /\ truthy (response_type req) = true)
    /\ (forall cl args ok,
          Called_validate_client cl args ok ∈ calls ->
          cl = client_id req /\ args = [])
    /\ (forall cl sc ok,
          Called_validate_scopes cl sc ok ∈ calls ->
          cl = client_id req /\ sc = scopes req /\ truthy sc = true)
    /\ (forall cl uri ok,
          Called_validate_redirect_uri cl uri ok ∈ calls ->
          cl = client_id req /\ uri = redirect_uri req
          /\ truthy uri = true /\ is_absolute_uri uri = true).
Proof.
  intros H req.
  destruct (validate_request_hook_arguments _ _ _ _ _ H)
    as (calls & Hlog & Hmax & Hok & Hany & Hc & Hs & _ & Hu & _).
  exists calls. repeat (split; [assumption|]). assumption.
Qed.

Lemma validate_request_asks_well_formed_witness :
  let run :=
    AuthorizationBase.validate_request Example.has_scheme
      (Example.base_hooks ["abc"] ["read"] None)
      (Example.start Example.request_abc []) in
  fst run = inr true /\ List.length (log (snd run)) = 3%nat.
Proof.
  cbv zeta.
  assert (Hv :
    AuthorizationBase.validate_request Example.has_scheme
      (Example.base_hooks ["abc"] ["read"] None)
      (Example.start Example.request_abc [])
    = (inr true,
       snd (AuthorizationBase.validate_request Example.has_scheme
              (Example.base_hooks ["abc"] ["read"] None)
              (Example.start Example.request_abc []))))
    by (vm_compute; reflexivity).
  destruct (validate_request_asks_well_formed _ _ _ _ _ Hv)
    as (calls & Hlog & _ & Hok & _).
  split; [rewrite Hv; reflexivity|].
  rewrite Hlog. cbn. apply Hok. reflexivity.
Defined.

(** X5. Every exception of the validator is an error of the module
    [errors] that carries the state of the request; its kind is one of
    [InvalidRequest], [UnauthorizedClient], [UnsupportedResponseType],
    [InvalidScope] and [AccessDenied], never [UnsupportedGrantType] or
    [InvalidGrant]; it has a description exactly when it is an
    [InvalidRequest]. *)
Theorem validate_request_errors {S : Type}
    (is_absolute_uri : option string -> bool)
    (hooks : AuthorizationBase.Hooks S) (st st' : Store S) x :
  AuthorizationBase.validate_request is_absolute_uri hooks st = (inl x, st')
  ->
  exists e,
    x = OAuth2 e
    /\ errors.state e = state (request st)
    /\ errors.kind e
       ∈ [errors.InvalidRequest; errors.UnauthorizedClient;
          errors.UnsupportedResponseType; errors.InvalidScope;
          errors.AccessDenied]
    /\ (is_Some (errors.description e)
        <-> errors.kind e = errors.InvalidRequest).
Proof.
  destruct st as [req o s n l]. intros H.
  unfold AuthorizationBase.validate_request in H. unfold_monad.
  cbn in *. branches.
  all: eexists; (split; [reflexivity|]); (split; [reflexivity|]).
  all: split; [apply list_elem_of_In; cbn; tauto|].
  all: cbn; split; [intros [d Hd]|intros Hk]; first [done | eauto].
Qed.

Lemma validate_request_errors_witness :
  exists e st',
    AuthorizationBase.validate_request Example.has_scheme
      (Example.base_hooks [] ["read"] None)
      (Example.start Example.request_abc [])
    = (inl (OAuth2 e), st')
    /\ errors.state e = Some "xyz".
Proof.
  assert (Hv :
    AuthorizationBase.validate_request Example.has_scheme
      (Example.base_hooks [] ["read"] None)
      (Example.start Example.request_abc [])
    = (inl (OAuth2 (errors.UnauthorizedClientError (Some "xyz"))),
       snd (AuthorizationBase.validate_request Example.has_scheme
              (Example.base_hooks [] ["read"] None)
              (Example.start Example.request_abc []))))
    by (vm_compute; reflexivity).
  destruct (validate_request_errors _ _ _ _ _ Hv) as (e & He & Hs & _).
  exists e. eexists. split; [rewrite Hv, He; reflexivity | exact Hs].
Defined.

(** X6. On a request that carries both scopes and a redirect URI the
    validator is read-only: whatever its verdict, the request is left as
    it was and neither default hook is called. *)
Theorem validate_request_read_only {S : Type}
    (is_absolute_uri : option string -> bool)
    (hooks : AuthorizationBase.Hooks S) (st st' : Store S) r :
  truthy (scopes (request st)) = true ->
  truthy (redirect_uri (request st)) = true ->
  AuthorizationBase.validate_request is_absolute_uri hooks st = (r, st') ->
  request st' = request st
  /\ exists calls,
       log st' = (log st ++ calls)%list
       /\ (forall cl d, Called_get_default_scopes cl d ∉ calls)
       /\ (forall cl d, Called_get_default_redirect_uri cl d ∉ calls).
Proof.
  intros Hs Hu H.
  destruct (validate_request_hook_arguments _ _ _ _ _ H)
    as (calls & Hlog & _ & _ & _ & _ & _ & Hds & _ & Hdu).
  destruct (validate_request_effect _ _ _ _ _ H)
    as (calls' & Hreq & _ & _ & _ & Hsc & Hru & _).
  split.
  - destruct Hsc as [Hsc | [Hsc _]]; [|congruence].
    destruct Hru as [Hru | [Hru _]]; [|congruence].
    rewrite Hreq, Hsc, Hru. by destruct (request st).
  - exists calls. split; [exact Hlog|]. split.
    + intros cl d Hin. apply Hds in Hin as (_ & Hf & _). congruence.
    + intros cl d Hin. apply Hdu in Hin as (_ & Hf & _). congruence.
Qed.

Lemma validate_request_read_only_witness :
  let st :=
    Example.start (set_scopes (Some ["read"]) Example.request_abc) [] in
  request
    (snd (AuthorizationBase.validate_request Example.has_scheme
            (Example.base_hooks ["abc"] ["read"] None) st))
  = request st.
Proof.
  cbv zeta.
  eapply (validate_request_read_only Example.has_scheme
            (Example.base_hooks ["abc"] ["read"] None)
            (Example.start (set_scopes (Some ["read"]) Example.request_abc)
               [])).
  - reflexivity.
  - reflexivity.
  - apply surjective_pairing.
Defined.

(** ** The token endpoint reads the wire parameters *)

(** X7. [create_token_response] takes [code] and [redirect_uri] from the
    wire parameters only: what the attributes [request.code] and
    [request.redirect_uri] held before the call has no effect on the
    response nor on the store it leaves. *)
Theorem create_token_response_reads_params {S : Type}
    (is_absolute_uri : option string -> bool) (token_at : nat -> string)
    (hooks : AuthorizationCodeGrant.Hooks S)
    (token_handler : Dict -> S -> Dict * S) (st : Store S)
    (code redirect_uri : option string) :
  AuthorizationCodeGrant.create_token_response is_absolute_uri token_at
    hooks token_handler
    (Validator.with_request
       (fun req => set_redirect_uri redirect_uri (set_code code req)) st)
  = AuthorizationCodeGrant.create_token_response is_absolute_uri token_at
      hooks token_handler st.
Proof.
  rewrite !create_token_response_unfold.
  destruct st as [[cid rt ru sc stt gt cd cl ps] o s n l]. reflexivity.
Qed.

(** X8. After [create_token_response] the attribute [request.code] is the
    [code] wire parameter, [None] when the parameter is missing.  When the
    [redirect_uri] parameter is missing, the redirect URI of the request
    is dropped: [validate_redirect_uri] is not called, and if the
    validator gets as far as the redirect URI it asks for the client's
    default one, answers [access_denied] when there is none, and
    otherwise goes on to issue the token. *)
Theorem create_token_response_missing_parameters {S : Type}
    (is_absolute_uri : option string -> bool) (token_at : nat -> string)
    (hooks : AuthorizationCodeGrant.Hooks S)
    (token_handler : Dict -> S -> Dict * S) (st st' : Store S) r :
  AuthorizationCodeGrant.create_token_response is_absolute_uri token_at
    hooks token_handler st = (r, st') ->
  let req := request st in
  code (request st') = params req !! "code"
  /\ params (request st') = params req
  /\ (params req !! "redirect_uri" = None ->
      exists calls,
        log st' = (log st ++ calls)%list
        /\ (forall cl uri ok,
              Called_validate_redirect_uri cl uri ok ∉ calls)
        /\ (forall cl d,
              Called_get_default_redirect_uri cl d ∈ calls ->
              redirect_uri (request st') = d
              /\ if truthy d
                 then exists token token',
                        r = inr token'
                        /\ Called_token_handler token token' ∈ calls
                 else r = inr (errors.json
                                 (errors.AccessDeniedError (state req))))).
Proof.
  rewrite create_token_response_unfold. cbn zeta.
  set (st0 := mkStore _ _ _ _ _).
  destruct (AuthorizationBase.validate_request _ _ st0)
    as [x st1] eqn:Hv.
  destruct (validate_request_effect _ _ _ _ _ Hv)
    as (calls' & Hreq & _ & _ & _ & _ & _ & Hr).
  destruct (validate_request_hook_arguments _ _ _ _ _ Hv)
    as (calls & Hlog & _ & _ & _ & _ & _ & _ & Hu & Hd).
  assert (Hcode : code (request st1) = params (request st) !! "code")
    by (rewrite Hreq; reflexivity).
  assert (Hparams : params (request st1) = params (request st))
    by (rewrite Hreq; reflexivity).
  assert (Hstate : state (request st0) = state (request st))
    by reflexivity.
  destruct Hr as [(-> & _) | (e & -> & _)].
  - destruct (AuthorizationCodeGrant.get_scopes hooks _ _ _)
      as [scopes s1].
    destruct (token_handler _ s1) as [token' s2].
    intros [= <- <-]. cbn.
    split; [exact Hcode|]. split; [exact Hparams|].
    intros Hmiss. eexists.
    split; [rewrite Hlog, <- app_assoc; reflexivity|]. split.
    + intros cl uri ok Hin. apply elem_of_app in Hin as [Hin | Hin].
      * apply Hu in Hin as (_ & -> & Ht & _). cbn in Ht.
        rewrite Hmiss in Ht. discriminate.
      * each_call Hin.
    + intros cl d Hin. apply elem_of_app in Hin as [Hin | Hin];
        [|each_call Hin].
      apply Hd in Hin as (_ & _ & Hru & Hres). split; [exact Hru|].
      destruct (truthy d); [|discriminate].
      eexists _, token'. split; [reflexivity|].
      apply elem_of_app. right. apply list_elem_of_In. cbn. tauto.
  - intros [= <- <-].
    split; [exact Hcode|]. split; [exact Hparams|].
    intros Hmiss. exists calls. split; [exact Hlog|]. split.
    + intros cl uri ok Hin.
      apply Hu in Hin as (_ & -> & Ht & _). cbn in Ht.
      rewrite Hmiss in Ht. discriminate.
    + intros cl d Hin.
      apply Hd in Hin as (_ & _ & Hru & Hres). split; [exact Hru|].
      destruct (truthy d); [discriminate|].
      injection Hres as ->. reflexivity.
Qed.

Lemma create_token_response_missing_parameters_witness :
  let run :=
    AuthorizationCodeGrant.create_token_response Example.has_scheme
      Example.numbered (Example.code_hooks ["abc"] ["read"] None)
      Example.unchanged
      (Example.start
         (mkRequest (Some "abc") (Some "code")
            (Some "https://app.example/cb") None (Some "xyz") None
            (Some "stale") (Some "abc") ∅)
         []) in
  code (request (snd run)) = None
  /\ redirect_uri (request (snd run)) = None
  /\ Example.answered "error" run = Some (VStr "access_denied").
Proof.
  cbv zeta.
  destruct (create_token_response_missing_parameters Example.has_scheme
              Example.numbered (Example.code_hooks ["abc"] ["read"] None)
              Example.unchanged
              (Example.start
                 (mkRequest (Some "abc") (Some "code")
                    (Some "https://app.example/cb") None (Some "xyz")
                    None (Some "stale") (Some "abc") ∅)
                 [])
              _ _ (surjective_pairing _))
    as (Hcode & _ & Hmiss).
  split; [exact Hcode|].
  destruct (Hmiss eq_refl) as (calls & _ & _ & Hd).
  split; vm_compute; reflexivity.
Defined.

(** ** What the endpoints do and never do *)

(** [create_token_response] returns a body. *)
Lemma create_token_response_returns {S : Type}
    (is_absolute_uri : option string -> bool) (token_at : nat -> string)
    (hooks : AuthorizationCodeGrant.Hooks S)
    (token_handler : Dict -> S -> Dict * S) (st : Store S) :
  exists body st',
    AuthorizationCodeGrant.create_token_response is_absolute_uri
      token_at hooks token_handler st = (inr body, st').
Proof.
  rewrite create_token_response_unfold. cbn zeta.
  set (st0 := mkStore _ _ _ _ _).
  destruct (AuthorizationBase.validate_request _ _ st0)
    as [x st1] eqn:Hv.
  destruct (validate_request_effect _ _ _ _ _ Hv)
    as (calls & _ & _ & _ & _ & _ & _ & Hr).
  destruct Hr as [(-> & _) | (e & -> & _)]; [|eauto].
  destruct (AuthorizationCodeGrant.get_scopes hooks _ _ _)
    as [scopes s1].
  destruct (token_handler _ s1) as [token' s2]. eauto.
Qed.

(** X10. The redirect of [create_authorization_response] carries either an
    [error] parameter or a [code] parameter, never both and never
    neither.  With an error nothing was generated, set or saved: the
    token supply and the grant instance are as before and only hooks of
    the base class were called.  With a code exactly one token was taken
    from the supply and the last call is the one that saved the grant. *)
Theorem code_authorization_error_or_code {S : Type}
    (is_absolute_uri : option string -> bool) (token_at : nat -> string)
    (hooks : AuthorizationCodeGrant.Hooks S) (st st' : Store S) response :
  AuthorizationCodeGrant.create_authorization_response is_absolute_uri
    token_at hooks st = (inr response, st') ->
  exists calls,
    log st' = (log st ++ calls)%list
    /\ (((exists v, ("error", v) ∈ common.query response)
         /\ (forall v, ("code", v) ∉ common.query response)
         /\ generated st' = generated st
         /\ self st' = self st
         /\ forallb of_base_class calls = true)
        \/ ((exists v, ("code", v) ∈ common.query response)
            /\ (forall v, ("error", v) ∉ common.query response)
            /\ generated st' = Datatypes.S (generated st)
            /\ exists grant before,
                 self_grant (self st') = Some grant
                 /\ calls
                    = (before
                         ++ [Called_save_authorization_grant
                               (client_id (request st)) grant
                               (state (request st))])%list
                 /\ forallb of_base_class before = true)).
Proof.
  destruct (AuthorizationBase.validate_request is_absolute_uri
              (AuthorizationCodeGrant.base hooks) st) as [x st1] eqn:Hv.
  destruct (validate_request_effect _ _ _ _ _ Hv)
    as (calls' & Hreq & Hself & Hgen & _ & _ & _ & Hr).
  destruct (validate_request_calls _ _ _ _ _ Hv) as (calls & Hlog & Hbase).
  destruct Hr as [(-> & _) | (e & -> & _)].
  - destruct (code_authorization_on_success _ token_at _ _ _ _ Hv)
      as (grant & Hg & Hrun).
    destruct (create_authorization_grant_run token_at st1)
      as (grant' & Hg' & Hcode & Hstate & Hother).
    rewrite Hg in Hg'. injection Hg' as <-.
    rewrite Hrun. intros [= <- <-]. cbn.
    eexists. split; [rewrite Hlog, <- app_assoc; reflexivity|].
    right. unfold items.
    split; [eexists; apply elem_of_map_to_list; exact Hcode|].
    split.
    { intros v Hin. apply elem_of_map_to_list in Hin.
      rewrite Hother in Hin by done. discriminate. }
    split; [by rewrite Hgen|].
    exists grant, calls. split; [reflexivity|]. split; [|exact Hbase].
    replace (client_id (request st1)) with (client_id (request st))
      by (rewrite Hreq; reflexivity).
    replace (state (request st1)) with (state (request st))
      by (rewrite Hreq; reflexivity).
    reflexivity.
  - rewrite (code_authorization_on_error _ token_at _ _ _ _ Hv).
    intros [= <- <-]. cbn.
    exists calls. split; [exact Hlog|]. left.
    split; [eexists; apply list_elem_of_here|].
    split.
    { intros v Hin. unfold errors.twotuples, errors.pair_of in Hin.
      destruct (errors.state e), (errors.description e);
        each_call Hin. }
    repeat split; assumption.
Qed.

Lemma code_authorization_error_or_code_witness :
  let run :=
    AuthorizationCodeGrant.create_authorization_response
      Example.has_scheme Example.numbered
      (Example.code_hooks [] ["read"] None)
      (Example.start Example.request_abc []) in
  generated (snd run) = 0%nat /\ self (snd run) = mkSelf None None None.
Proof.
  cbv zeta.
  assert (Hrun :
    AuthorizationCodeGrant.create_authorization_response
      Example.has_scheme Example.numbered
      (Example.code_hooks [] ["read"] None)
      (Example.start Example.request_abc [])
    = (inr (common.mkRedirect (Some "https://app.example/cb")
              [("error", VStr "unauthorized_client");
               ("state", VStr "xyz")] []),
       snd (AuthorizationCodeGrant.create_authorization_response
              Example.has_scheme Example.numbered
              (Example.code_hooks [] ["read"] None)
              (Example.start Example.request_abc []))))
    by (vm_compute; reflexivity).
  destruct (code_authorization_error_or_code _ _ _ _ _ _ Hrun)
    as (calls & _ & [(_ & _ & Hgen & Hself & _) | (_ & Hno & _)]).
  - split; assumption.
  - exfalso. apply (Hno (VStr "unauthorized_client")).
    apply list_elem_of_here.
Defined.

(** X11. [create_token_response] does not persist the token it issues: no
    save hook is called and [self.grant] is not written.  When a token is
    issued, the calls after the validator's are [get_scopes] for the
    client and code of the request, then the token handler; [self.scopes]
    holds what [get_scopes] returned, [self.token] and the response are
    what the handler returned, and two tokens were taken from the
    supply.  When an error is answered nothing is generated or set. *)
Theorem create_token_response_not_persisted {S : Type}
    (is_absolute_uri : option string -> bool) (token_at : nat -> string)
    (hooks : AuthorizationCodeGrant.Hooks S)
    (token_handler : Dict -> S -> Dict * S) (st st' : Store S) body :
  AuthorizationCodeGrant.create_token_response is_absolute_uri token_at
    hooks token_handler st = (inr body, st') ->
  exists calls,
    log st' = (log st ++ calls)%list
    /\ (forall client_id grant state,
          (Called_save_authorization_grant client_id grant state ∉ calls)
          /\ (Called_save_grant client_id grant state ∉ calls))
    /\ self_grant (self st') = self_grant (self st)
    /\ ((exists e,
           body = errors.json e
           /\ self st' = self st
           /\ generated st' = generated st
           /\ forallb of_base_class calls = true)
        \/ (exists before scopes token,
              calls
              = (before
                   ++ [Called_get_scopes (client (request st))
                         (params (request st) !! "code") scopes;
                       Called_token_handler token body])%list
              /\ forallb of_base_class before = true
              /\ token !! "scope" = Some (VStr (join " " scopes))
              /\ self_scopes (self st') = Some scopes
              /\ self_token (self st') = Some body
              /\ generated st'
                 = Datatypes.S (Datatypes.S (generated st)))).
Proof.
  rewrite create_token_response_unfold. cbn zeta.
  set (st0 := mkStore _ _ _ _ _).
  destruct (AuthorizationBase.validate_request _ _ st0)
    as [x st1] eqn:Hv.
  destruct (validate_request_effect _ _ _ _ _ Hv)
    as (calls' & Hreq & Hself & Hgen & _ & _ & _ & Hr).
  destruct (validate_request_calls _ _ _ _ _ Hv) as (calls & Hlog & Hbase).
  cbn in Hself, Hgen, Hlog.
  assert (Hnone : forall c, c ∈ calls -> of_base_class c = true).
  { intros c Hin. rewrite forallb_forall in Hbase. apply Hbase.
    by apply list_elem_of_In. }
  destruct Hr as [(-> & _) | (e & -> & _)].
  - destruct (AuthorizationCodeGrant.get_scopes hooks _ _ _)
      as [scopes s1] eqn:Hsc.
    destruct (token_handler _ s1) as [token' s2].
    intros [= <- <-]. cbn.
    eexists. split; [rewrite Hlog, <- app_assoc; reflexivity|].
    split.
    { intros cid g s. split; intros Hin;
        apply elem_of_app in Hin as [Hin | Hin];
        first [ apply Hnone in Hin; discriminate | each_call Hin ]. }
    split; [by rewrite Hself|].
    right. eexists calls, scopes, _.
    split.
    { replace (client (request st1)) with (client (request st))
        by (rewrite Hreq; reflexivity).
      replace (code (request st1)) with (params (request st) !! "code")
        by (rewrite Hreq; reflexivity).
      reflexivity. }
    split; [exact Hbase|].
    split; [by do 3 (rewrite lookup_insert_ne by done);
               rewrite lookup_insert_eq|].
    split; [reflexivity|]. split; [reflexivity|]. by rewrite Hgen.
  - intros [= <- <-].
    exists calls. split; [exact Hlog|].
    split.
    { intros cid g s. split; intros Hin; apply Hnone in Hin;
        discriminate. }
    split; [by rewrite Hself|].
    left. exists e. repeat split; assumption.
Qed.

Lemma create_token_response_not_persisted_witness :
  let run :=
    AuthorizationCodeGrant.create_token_response Example.has_scheme
      Example.numbered (Example.code_hooks ["abc"] ["read"] None)
      Example.unchanged
      (Example.start (Example.request_redeem "c") ["c"]) in
  Example.answered "access_token" run = Some (VStr "token-0")
  /\ self_grant (self (snd run)) = None.
Proof.
  cbv zeta. split; [vm_compute; reflexivity|].
  destruct (create_token_response_returns Example.has_scheme
              Example.numbered (Example.code_hooks ["abc"] ["read"] None)
              Example.unchanged
              (Example.start (Example.request_redeem "c") ["c"]))
    as (body & st' & Hrun).
  destruct (create_token_response_not_persisted _ _ _ _ _ _ _ Hrun)
    as (calls & _ & _ & Hgrant & _).
  rewrite Hrun. exact Hgrant.
Defined.

(** X12. Both grants report a validation error on the same redirect URI
    with the same pairs: the authorization code grant appends them to the
    query, the implicit grant to the fragment; both leave the store as
    the validator left it.  The pairs start with [error] and hold neither
    a [code] nor an [access_token]. *)
Theorem error_redirect_query_or_fragment {S : Type}
    (is_absolute_uri : option string -> bool) (token_at : nat -> string)
    (code_hooks : AuthorizationCodeGrant.Hooks S)
    (implicit_hooks : ImplicitGrant.Hooks S)
    (token_handler : Self -> Dict -> S -> Dict * S)
    (st st1 : Store S) x :
  AuthorizationCodeGrant.base code_hooks = ImplicitGrant.base implicit_hooks
  ->
  AuthorizationBase.validate_request is_absolute_uri
    (ImplicitGrant.base implicit_hooks) st = (inl x, st1) ->
  exists target pairs,
    AuthorizationCodeGrant.create_authorization_response is_absolute_uri
      token_at code_hooks st
    = (inr (common.mkRedirect target pairs []), st1)
    /\ ImplicitGrant.create_authorization_response is_absolute_uri
         token_at implicit_hooks token_handler st
       = (inr (common.mkRedirect target [] pairs), st1)
    /\ (exists v, ("error", v) ∈ pairs)
    /\ (forall v, ("code", v) ∉ pairs)
    /\ (forall v, ("access_token", v) ∉ pairs).
Proof.
  intros Hbase Hv.
  destruct (validate_request_effect _ _ _ _ _ Hv)
    as (calls & _ & _ & _ & _ & _ & _ & Hr).
  destruct Hr as [(Hr & _) | (e & Hr & _)]; [discriminate|].
  injection Hr as ->.
  exists (redirect_uri (request st1)), (errors.twotuples e).
  split; [|split; [|split; [|split]]].
  - apply code_authorization_on_error. rewrite Hbase. exact Hv.
  - rewrite implicit_response_unfold, Hv. reflexivity.
  - eexists. apply list_elem_of_here.
  - intros v Hin. unfold errors.twotuples, errors.pair_of in Hin.
    destruct (errors.state e), (errors.description e); each_call Hin.
  - intros v Hin. unfold errors.twotuples, errors.pair_of in Hin.
    destruct (errors.state e), (errors.description e); each_call Hin.
Qed.

Lemma error_redirect_query_or_fragment_witness :
  let st := Example.start Example.request_anonymous [] in
  exists target pairs st1,
    AuthorizationCodeGrant.create_authorization_response
      Example.has_scheme Example.numbered
      (Example.code_hooks ["abc"] ["read"] None) st
    = (inr (common.mkRedirect target pairs []), st1)
    /\ ImplicitGrant.create_authorization_response Example.has_scheme
         Example.numbered (Example.implicit_hooks ["abc"] ["read"] None)
         (fun _ => Example.unchanged) st
       = (inr (common.mkRedirect target [] pairs), st1).
Proof.
  cbv zeta.
  destruct (error_redirect_query_or_fragment Example.has_scheme
              Example.numbered (Example.code_hooks ["abc"] ["read"] None)
              (Example.implicit_hooks ["abc"] ["read"] None)
              (fun _ => Example.unchanged)
              (Example.start Example.request_anonymous [])
              (Example.start Example.request_anonymous [])
              (OAuth2 (errors.InvalidRequestError (Some "xyz")
                         (Some "Missing client_id parameter."))))
    as (target & pairs & Hc & Hi & _); [reflexivity | reflexivity |].
  exists target, pairs, (Example.start Example.request_anonymous []).
  split; assumption.
Defined.

(** X13. [create_code] and [create_authorization_grant] are the same
    operation: in every store they return the same grant and leave the
    same store.  The grant holds the next token of the supply under
    [code], and has a [state] exactly when the state of the request is
    present; nothing but the token supply is changed. *)
Theorem create_code_same_as_grant {S : Type} (token_at : nat -> string)
    (st : Store S) :
  AuthorizationCodeGrant.create_code token_at st
  = AuthorizationCodeGrant.create_authorization_grant token_at st
  /\ exists grant,
       AuthorizationCodeGrant.create_code token_at st
       = (inr grant,
          mkStore (request st) (self st) (backend st)
            (Datatypes.S (generated st)) (log st))
       /\ grant !! "code" = Some (VStr (token_at (generated st)))
       /\ (is_Some (grant !! "state")
           <-> truthy (state (request st)) = true)
       /\ dom grant ⊆ {["code"; "state"]}.
Proof.
  split; [reflexivity|].
  destruct (create_authorization_grant_run token_at st)
    as (grant & Hg & Hcode & Hstate & Hother).
  exists grant. split; [exact Hg|]. split; [exact Hcode|]. split.
  - rewrite Hstate. destruct (truthy (state (request st))).
    + split; [done | eauto].
    + split; [intros [v Hv]; discriminate | done].
  - intros key Hin. apply elem_of_dom in Hin as [v Hv].
    destruct (decide (key = "code")) as [-> | Hc]; [set_solver|].
    destruct (decide (key = "state")) as [-> | Hs]; [set_solver|].
    rewrite Hother in Hv by done. discriminate.
Qed.

(** The implicit grant's [create_authorization_response] returns a
    redirect. *)
Lemma implicit_response_returns {S : Type}
    (is_absolute_uri : option string -> bool) (token_at : nat -> string)
    (hooks : ImplicitGrant.Hooks S)
    (token_handler : Self -> Dict -> S -> Dict * S) (st : Store S) :
  exists response st',
    ImplicitGrant.create_authorization_response is_absolute_uri token_at
      hooks token_handler st = (inr response, st').
Proof.
  rewrite implicit_response_unfold.
  destruct (AuthorizationBase.validate_request is_absolute_uri
              (ImplicitGrant.base hooks) st) as [x st1] eqn:Hv.
  destruct (validate_request_effect _ _ _ _ _ Hv)
    as (calls & _ & _ & _ & _ & Hsc & _ & Hr).
  destruct Hr as [(-> & _ & Hd) | (e & -> & _)]; [|eauto].
  assert (Hl : exists l, scopes (request st1) = Some l).
  { destruct (truthy (scopes (request st))) eqn:Ht.
    - destruct Hsc as [Hsc | [Hsc _]]; [|discriminate].
      rewrite Hsc. destruct (scopes (request st)); [eauto | discriminate].
    - destruct (Hd eq_refl) as (default & Hdef & _). eauto. }
  destruct Hl as [l Hl].
  rewrite (implicit_create_token_run token_at st1 l Hl). cbn.
  match goal with
  | |- context [token_handler ?o ?t ?s] =>
      destruct (token_handler o t s) as [token' s2]
  end.
  eauto.
Qed.

(** X14. The implicit grant saves what the token handler returned, not the
    token it built: when the validator passes, the calls after the
    validator's are the token handler and then [save_grant] with the
    client id and state of the request and the handler's token, which is
    also [self.token] and the source of the fragment; one token was taken
    from the supply.  When the validator raises, nothing is generated,
    set or saved. *)
Theorem implicit_response_saves_handled_token {S : Type}
    (is_absolute_uri : option string -> bool) (token_at : nat -> string)
    (hooks : ImplicitGrant.Hooks S)
    (token_handler : Self -> Dict -> S -> Dict * S)
    (st st' : Store S) response :
  ImplicitGrant.create_authorization_response is_absolute_uri token_at
    hooks token_handler st = (inr response, st') ->
  exists calls,
    log st' = (log st ++ calls)%list
    /\ ((forallb of_base_class calls = true
         /\ generated st' = generated st
         /\ self st' = self st
         /\ exists v, ("error", v) ∈ common.fragment response)
        \/ (exists before token token',
              calls
              = (before
                   ++ [Called_token_handler token token';
                       Called_save_grant (client_id (request st)) token'
                         (state (request st))])%list
              /\ forallb of_base_class before = true
              /\ token !! "access_token"
                 = Some (VStr (token_at (generated st)))
              /\ self_token (self st') = Some token'
              /\ common.fragment response = items token'
              /\ generated st' = Datatypes.S (generated st))).
Proof.
  rewrite implicit_response_unfold.
  destruct (AuthorizationBase.validate_request is_absolute_uri
              (ImplicitGrant.base hooks) st) as [x st1] eqn:Hv.
  destruct (validate_request_effect _ _ _ _ _ Hv)
    as (calls' & Hreq & Hself & Hgen & _ & Hsc & _ & Hr).
  destruct (validate_request_calls _ _ _ _ _ Hv) as (calls & Hlog & Hbase).
  destruct Hr as [(-> & _ & Hd) | (e & -> & _)].
  - assert (Hl : exists l, scopes (request st1) = Some l).
    { destruct (truthy (scopes (request st))) eqn:Ht.
      - destruct Hsc as [Hsc | [Hsc _]]; [|discriminate].
        rewrite Hsc. destruct (scopes (request st)); [eauto | discriminate].
      - destruct (Hd eq_refl) as (default & Hdef & _). eauto. }
    destruct Hl as [l Hl].
    rewrite (implicit_create_token_run token_at st1 l Hl). cbn.
    match goal with
    | |- context [token_handler ?o ?t ?s] =>
        destruct (token_handler o t s) as [token' s2]
    end.
    intros [= <- <-]. cbn.
    eexists. split; [rewrite Hlog, <- app_assoc; reflexivity|].
    right. eexists calls, _, token'.
    split.
    { replace (client_id (request st1)) with (client_id (request st))
        by (rewrite Hreq; reflexivity).
      replace (state (request st1)) with (state (request st))
        by (rewrite Hreq; reflexivity).
      reflexivity. }
    split; [exact Hbase|].
    split; [by rewrite lookup_insert_eq, Hgen|].
    split; [reflexivity|]. split; [reflexivity|]. by rewrite Hgen.
  - intros [= <- <-]. exists calls. split; [exact Hlog|]. left.
    repeat (split; [assumption|]).
    eexists. cbn. apply list_elem_of_here.
Qed.

Lemma implicit_response_saves_handled_token_witness :
  let run :=
    ImplicitGrant.create_authorization_response Example.has_scheme
      Example.numbered (Example.implicit_hooks ["abc"] ["read"] None)
      (fun _ => Example.emptied)
      (Example.start Example.request_token []) in
  generated (snd run) = 1%nat
  /\ exists token',
       self_token (self (snd run)) = Some token'
       /\ Called_save_grant (Some "abc") token' None ∈ log (snd run).
Proof.
  cbv zeta.
  destruct (implicit_response_returns Example.has_scheme
              Example.numbered
              (Example.implicit_hooks ["abc"] ["read"] None)
              (fun _ => Example.emptied)
              (Example.start Example.request_token []))
    as (response & st' & Hrun).
  destruct (implicit_response_saves_handled_token _ _ _ _ _ _ _ Hrun)
    as (calls & Hlog & [(Hbase & Hgen & _) | Hok]).
  - exfalso.
    assert (Hg :
      generated
        (snd (ImplicitGrant.create_authorization_response
                Example.has_scheme Example.numbered
                (Example.implicit_hooks ["abc"] ["read"] None)
                (fun _ => Example.emptied)
                (Example.start Example.request_token []))) = 1%nat)
      by (vm_compute; reflexivity).
    rewrite Hrun in Hg. cbn in Hg, Hgen. congruence.
  - destruct Hok as (before & token & token' & Hcalls & _ & _ & Hself & _
                     & Hgen).
    rewrite Hrun. cbn. split; [exact Hgen|].
    exists token'. split; [exact Hself|].
    rewrite Hlog, Hcalls. apply elem_of_app. right. apply elem_of_app.
    right. apply list_elem_of_In. cbn. tauto.
Defined.

(** X15. What a successful validation guarantees: the validator returns
    [True]; [client_id] and [response_type] are present and
    [response_type] is one of [response_type_handlers]; the backend
    accepted the client; it accepted the scopes when the request carried
    some; and when the request carried a redirect URI, that URI is
    absolute and the backend accepted it. *)
Theorem validate_request_success {S : Type}
    (is_absolute_uri : option string -> bool)
    (hooks : AuthorizationBase.Hooks S) (st st' : Store S) b :
  AuthorizationBase.validate_request is_absolute_uri hooks st = (inr b, st')
  ->
  let req := request st in
  b = true
  /\ truthy (client_id req) = true
  /\ truthy (response_type req) = true
  /\ AuthorizationBase.handled
       (AuthorizationBase.response_type_handlers hooks) (response_type req)
     = true
  /\ exists calls,
       log st' = (log st ++ calls)%list
       /\ Called_validate_client (client_id req) [] true ∈ calls
       /\ (truthy (scopes req) = true ->
           Called_validate_scopes (client_id req) (scopes req) true
             ∈ calls)
       /\ (truthy (redirect_uri req) = true ->
           is_absolute_uri (redirect_uri req) = true
           /\ Called_validate_redirect_uri (client_id req)
                (redirect_uri req) true ∈ calls).
Proof.
  destruct st as [req o s n l]. intros H req'. subst req'.
  unfold AuthorizationBase.validate_request in H. unfold_monad.
  cbn in *. branches.
  all: repeat (split; [first [reflexivity | assumption]|]).
  all: eexists.
  all: (split; [rewrite <- !app_assoc; reflexivity|]).
  all: (split; [apply list_elem_of_In; cbn; tauto|]).
  all: split; intros Ht; cbn in *.
  all: first
    [ congruence
    | apply list_elem_of_In; cbn; tauto
    | split; [congruence | apply list_elem_of_In; cbn; tauto] ].
Qed.

Lemma validate_request_success_witness :
  AuthorizationBase.handled ["code"; "token"]
    (response_type Example.request_abc) = true.
Proof.
  assert (Hv :
    AuthorizationBase.validate_request Example.has_scheme
      (Example.base_hooks ["abc"] ["read"] None)
      (Example.start Example.request_abc [])
    = (inr true,
       snd (AuthorizationBase.validate_request Example.has_scheme
              (Example.base_hooks ["abc"] ["read"] None)
              (Example.start Example.request_abc []))))
    by (vm_compute; reflexivity).
  destruct (validate_request_success _ _ _ _ _ Hv) as (_ & _ & _ & Hh & _).
  exact Hh.
Defined.
